(** * The research multi-agent workflow: planner, researcher, writer

    A shallow embedding of [src/research_multi_agent] (state.py, graph.py,
    agents/planner.py, agents/researcher.py, agents/writer.py) and the
    properties of its orchestration core.

    Conventions of the embedding.
    - A Python [str] is a [string]: one [ascii] per character, so the texts
      covered are those whose code points are below 256.
    - A Python [int] is a [Z]; [//] is [Z.div] (both round towards minus
      infinity) with the [ZeroDivisionError] written out.
    - A Python [float] is a [pyfloat]: the rational that a finite float
      denotes, an infinity, or NaN. How an [int] or a text becomes a
      [float] (rounding, rejection) is left to the [World].
    - A function that can raise returns a [result]; [try]/[except] is a
      [match] on it.
    - The state is a record of its keys. The graph hands it over as a
      [dict] (the schema is a [TypedDict]); the nodes read it with [get],
      which the projections stand for, and a function that reads it by
      attribute gets it as a [StateValue], on which the access can fail.
    - The collaborators outside the repository (chat model, ReAct agent,
      [json.loads], pydantic's float coercion, the clock) are the fields of
      a [World]. *)

From Stdlib Require Import ZArith QArith Lia Ascii.
From stdpp Require Import base option list strings pretty gmap.

Open Scope Z_scope.

#[local] Set Warnings "-register-all,-clear-no-such-hyp".

(** ** Exceptions *)

(** [Raise msg] is a raised exception whose [str(e)] is [msg]. *)
Inductive result (A : Type) : Type :=
  | Ok (a : A)
  | Raise (msg : string).
Arguments Ok {A} a.
Arguments Raise {A} msg.

#[global] Instance result_ret : MRet result := fun _ a => Ok a.
#[global] Instance result_bind : MBind result := fun _ _ f r =>
  match r with
  | Ok a => f a
  | Raise msg => Raise msg
  end.

(** ** Floats *)

(** A Python [float]: a finite value, written as the rational it denotes,
    [inf] or [-inf], or [nan]. *)
Inductive pyfloat :=
  | Finite (q : Q)
  | Infinite (negative : bool)
  | NaN.

Bind Scope Q_scope with pyfloat.
Coercion Finite : Q >-> pyfloat.

(** ** Python string primitives *)

Definition ascii_eqb : ascii -> ascii -> bool := Stdlib.Strings.Ascii.eqb.

Definition nl : string := String "010"%char EmptyString.

Definition ascii_in (lo hi : N) (c : ascii) : bool :=
  ((lo <=? N_of_ascii c) && (N_of_ascii c <=? hi))%N.

(** [c.lower()] on one character: A-Z, and the Latin-1 capitals U+00C0 to
    U+00DE except the multiplication sign U+00D7, move up by 32. *)
Definition lower_ascii (c : ascii) : ascii :=
  if ascii_in 65 90 c
     || (ascii_in 192 222 c && negb (N_of_ascii c =? 215)%N)
  then ascii_of_N (N_of_ascii c + 32)
  else c.

(** [s.lower()] *)
Fixpoint py_lower (s : string) : string :=
  match s with
  | EmptyString => EmptyString
  | String c s' => String (lower_ascii c) (py_lower s')
  end.

(** [s.startswith(p)] *)
Fixpoint py_startswith (p s : string) : bool :=
  match p, s with
  | EmptyString, _ => true
  | String a p', String b s' => if ascii_eqb a b then py_startswith p' s' else false
  | String _ _, EmptyString => false
  end.

(** [needle in hay] *)
Fixpoint py_in (needle hay : string) : bool :=
  py_startswith needle hay ||
  match hay with
  | EmptyString => false
  | String _ hay' => py_in needle hay'
  end.

(** [s.endswith(p)] *)
Definition py_endswith (p s : string) : bool :=
  py_startswith (String.rev p) (String.rev s).

(** [c in chars] for one character *)
Fixpoint char_in (c : ascii) (chars : string) : bool :=
  match chars with
  | EmptyString => false
  | String d chars' => ascii_eqb c d || char_in c chars'
  end.

(** [s.lstrip(chars)] *)
Fixpoint py_lstrip (chars s : string) : string :=
  match s with
  | EmptyString => EmptyString
  | String c s' => if char_in c chars then py_lstrip chars s' else s
  end.

(** [s.rstrip(chars)] *)
Definition py_rstrip (chars s : string) : string :=
  String.rev (py_lstrip chars (String.rev s)).

(** The characters below 256 for which [str.isspace] holds: tab, line
    feed, vertical tab, form feed, carriage return, U+001C to U+001F,
    space, U+0085 and U+00A0. *)
Definition py_whitespace : string :=
  String "009"%char (String "010"%char (String "011"%char (String "012"%char (String "013"%char
  (String "028"%char (String "029"%char (String "030"%char (String "031"%char (String "032"%char
  (String "133"%char (String "160"%char EmptyString))))))))))).

(** [s.strip()] *)
Definition py_strip (s : string) : string :=
  py_rstrip py_whitespace (py_lstrip py_whitespace s).

(** [s.split(sep)] for a one-character separator: the pieces between the
    separators, one more than there are separators. *)
Fixpoint py_split (sep : ascii) (s : string) : list string :=
  match s with
  | EmptyString => [EmptyString]
  | String c s' =>
      if ascii_eqb c sep then EmptyString :: py_split sep s'
      else match py_split sep s' with
           | [] => [String c EmptyString]
           | piece :: pieces => String c piece :: pieces
           end
  end.

Definition split_lines (s : string) : list string := py_split "010"%char s.

(** [s[:n]] for [n >= 0] *)
Definition str_take (n : nat) (s : string) : string := String.substring 0 n s.

(** [sep.join(parts)] *)
Fixpoint py_join (sep : string) (parts : list string) : string :=
  match parts with
  | [] => EmptyString
  | [p] => p
  | p :: rest => p +:+ sep +:+ py_join sep rest
  end.

(** [str(n)] for an [int] *)
Definition str_of_int (n : Z) : string := pretty n.

(** [len(l)] as a Python [int] *)
Definition len {A} (l : list A) : Z := Z.of_nat (length l).

(** [l[start:stop]] with Python's treatment of negative and overlong
    indices. *)
Definition clip_index (n i : Z) : Z :=
  if i <? 0 then Z.max 0 (i + n) else Z.min i n.

Definition py_slice {A} (l : list A) (start stop : Z) : list A :=
  let a := clip_index (len l) start in
  let b := clip_index (len l) stop in
  take (Z.to_nat (b - a)) (drop (Z.to_nat a) l).

(** The first value stored under a key. *)
Fixpoint assoc {K V} `{EqDecision K} (k : K) (l : list (K * V)) : option V :=
  match l with
  | [] => None
  | (k', v) :: rest => if decide (k' = k) then Some v else assoc k rest
  end.

(** [a // b] *)
Definition floordiv (a b : Z) : result Z :=
  if b =? 0 then Raise "integer division or modulo by zero" else Ok (a / b).


(** ** state.py: the shared state *)

Record ResearchPlan := {
  main_topic : string;
  subtopics : list string;
  research_questions : list string
}.

Record ResearchResult := {
  query : string;
  content : string;
  source : string;
  relevance_score : pyfloat
}.

(** A message of the conversation: who wrote it, its text and the optional
    author tag ([name]). *)
Inductive Role := Human | AI | System.

Record Message := {
  role : Role;
  text : string;
  name : option string
}.

Definition HumanMessage (s : string) : Message :=
  {| role := Human; text := s; name := None |}.
Definition AIMessage (s agent : string) : Message :=
  {| role := AI; text := s; name := Some agent |}.

Definition is_user (m : Message) : bool :=
  match role m with Human => true | _ => false end.

Record ResearchMultiAgentState := {
  messages : list Message;
  research_plan : option ResearchPlan;
  research_results : list ResearchResult;
  research_iterations : Z;
  max_research_iterations : Z;
  final_report : option string;
  current_agent : string
}.

(** The state a run starts from when the caller supplies only the
    messages: every other field has its declared default. *)
Definition initial_state (msgs : list Message) : ResearchMultiAgentState := {|
  messages := msgs;
  research_plan := None;
  research_results := [];
  research_iterations := 0;
  max_research_iterations := 5;
  final_report := None;
  current_agent := "planner"
|}.

(** What a node returns: the keys it sets. [None] is an absent key. *)
Record Delta := {
  d_messages : list Message;
  d_research_plan : option ResearchPlan;
  d_research_results : option (list ResearchResult);
  d_research_iterations : option Z;
  d_final_report : option string;
  d_current_agent : option string
}.

(** The controller's merge: [messages] has the appending reducer of
    [MessagesState], every other key that is present replaces the field. *)
Definition merge (st : ResearchMultiAgentState) (d : Delta)
  : ResearchMultiAgentState := {|
  messages := messages st ++ d_messages d;
  research_plan :=
    match d_research_plan d with Some p => Some p | None => research_plan st end;
  research_results := default (research_results st) (d_research_results d);
  research_iterations := default (research_iterations st) (d_research_iterations d);
  max_research_iterations := max_research_iterations st;
  final_report :=
    match d_final_report d with Some r => Some r | None => final_report st end;
  current_agent := default (current_agent st) (d_current_agent d)
|}.

(** ** The collaborators *)

(** The [content] of a generated message: a text, or a list of content
    blocks, of which the code observes the length and the [str()]
    rendering. *)
Inductive Content :=
  | CText (s : string)
  | CBlocks (n : nat) (rendering : string).

(** [str(content)] *)
Definition str_of_content (c : Content) : string :=
  match c with
  | CText s => s
  | CBlocks _ r => r
  end.

(** A tool call of the ReAct agent: [name], [args.query] ([None]: no such
    key) and [id]. *)
Record ToolCall := {
  tc_name : string;
  tc_query : option string;
  tc_id : option string
}.

(** A message of the agent's transcript. [t_tool_calls] and
    [t_tool_call_id] are [None] on a message that has no such attribute. *)
Record TMessage := {
  t_content : Content;
  t_tool_calls : option (list ToolCall);
  t_tool_call_id : option string
}.

(** A decoded JSON document. *)
Inductive json :=
  | JNull
  | JBool (b : bool)
  | JInt (z : Z)
  | JFloat (x : pyfloat)
  | JStr (s : string)
  | JArr (items : list json)
  | JObj (fields : list (string * json)).

(** What the research agent is asked: the values that
    [_create_research_instructions] puts into its text. *)
Record Instructions := {
  i_iteration : Z;
  i_main_topic : string;
  i_focus_areas : list string;
  i_focus_questions : list string;
  i_existing_results_count : Z
}.

Record World := {
  (** the planner's chat model on the user query: the [content] of its
      response, or the exception of the prompt loading or of the call *)
  planner_model : string -> result Content;
  (** the ReAct agent on the instructions: the [messages] of its response,
      or the exception of its construction or of the call *)
  research_agent : Instructions -> result (list TMessage);
  (** the writer's chat model on the state its prompt is built from: the
      text of its response, or an exception *)
  writer_model : ResearchMultiAgentState -> result string;
  (** [json.loads]; [None] is [JSONDecodeError] *)
  json_loads : string -> option json;
  (** pydantic's coercion of a value that is not a [float] (an [int],
      which is rounded or too large, a numeric text, a boolean) to a
      [float] field; [None] when it rejects the value *)
  float_field : json -> option pyfloat;
  (** [_get_current_date()] *)
  current_date : string
}.

(** ** agents/researcher.py *)

(** [state.research_plan.<attr>]: an [AttributeError] on [None]. *)
Definition plan_of (state : ResearchMultiAgentState) : result ResearchPlan :=
  match research_plan state with
  | Some plan => Ok plan
  | None => Raise "'NoneType' object has no attribute 'subtopics'"
  end.

(** The focus slice of the iteration and the other values of the
    instructions text. *)
Definition _create_research_instructions (state : ResearchMultiAgentState)
  : result Instructions :=
  plan ← plan_of state;
  let existing_results_count := len (research_results state) in
  let iteration := research_iterations state + 1 in
  focus ←
    (if iteration =? 1 then
       Ok (if 3 <? len (subtopics plan)
           then take 3 (subtopics plan) else subtopics plan,
           if 5 <? len (research_questions plan)
           then take 5 (research_questions plan) else research_questions plan)
     else
       per_s ← floordiv (len (subtopics plan)) (max_research_iterations state);
       let subtopics_per_iteration := Z.max 2 per_s in
       let start_idx := (iteration - 1) * subtopics_per_iteration in
       let focus_areas :=
         py_slice (subtopics plan) start_idx (start_idx + subtopics_per_iteration) in
       per_q ← floordiv (len (research_questions plan)) (max_research_iterations state);
       let questions_per_iteration := Z.max 3 per_q in
       let start_idx := (iteration - 1) * questions_per_iteration in
       Ok (focus_areas,
           py_slice (research_questions plan) start_idx
                    (start_idx + questions_per_iteration)));
  Ok {| i_iteration := iteration;
        i_main_topic := main_topic plan;
        i_focus_areas := focus.1;
        i_focus_questions := focus.2;
        i_existing_results_count := existing_results_count |}.

(** The first message carrying the call identifier gives the result text;
    the empty text when there is none. *)
Fixpoint _find_tool_result (messages : list TMessage) (tool_call_id : option string)
  : string :=
  match messages with
  | [] => ""
  | message :: rest =>
      match t_tool_call_id message with
      | Some i =>
          if decide (Some i = tool_call_id)
          then str_of_content (t_content message)
          else _find_tool_result rest tool_call_id
      | None => _find_tool_result rest tool_call_id
      end
  end.

(** [d.get(key, default)] on a decoded object *)
Definition dict_get (key : string) (fields : list (string * json)) (dflt : json) : json :=
  default dflt (assoc key fields).

(** [v[:n]]: texts and lists can be sliced, the other values raise. *)
Definition json_slice (n : nat) (v : json) : result json :=
  match v with
  | JStr s => Ok (JStr (str_take n s))
  | JArr items => Ok (JArr (take n items))
  | _ => Raise "object is not subscriptable"
  end.

(** pydantic's validation of a [str] field *)
Definition str_field (v : json) : result string :=
  match v with
  | JStr s => Ok s
  | _ => Raise "Input should be a valid string"
  end.

(** pydantic's validation of a [float] field: a [float] is taken as it
    is, a value of another type goes through the coercion of the world. *)
Definition float_of (w : World) (v : json) : option pyfloat :=
  match v with
  | JFloat x => Some x
  | _ => float_field w v
  end.

(** [ResearchResult(query=..., content=..., source=..., relevance_score=...)]
    on values that come out of a decoded document. *)
Definition ResearchResult_validate (w : World) (q : string) (c src score : json)
  : result ResearchResult :=
  c' ← str_field c;
  src' ← str_field src;
  match float_of w score with
  | Some score' =>
      Ok {| query := q; content := c'; source := src'; relevance_score := score' |}
  | None => Raise "Input should be a valid number"
  end.

(** The record built from [first_result] (or from [data] itself) by its
    [get] calls; a value that is not an object has no [get]. *)
Definition result_of_record (w : World) (q raw : string) (record : json)
  : result ResearchResult :=
  match record with
  | JObj fields =>
      c ← json_slice 2000 (dict_get "content" fields (JStr raw));
      ResearchResult_validate w q c
        (dict_get "url" fields (JStr "Unknown source"))
        (dict_get "score" fields (JFloat 0.8))
  | _ => Raise "object has no attribute 'get'"
  end.

Definition _create_research_result (w : World) (q raw : string) : ResearchResult :=
  let attempt : result (option ResearchResult) :=
    match json_loads w raw with
    | Some (JArr (first_result :: _)) =>
        r ← result_of_record w q raw first_result; Ok (Some r)
    | Some (JObj fields) =>
        r ← result_of_record w q raw (JObj fields); Ok (Some r)
    | _ => Ok None
    end in
  match attempt with
  | Ok (Some r) => r
  | Ok None =>
      {| query := q; content := str_take 2000 raw;
         source := "Web search result"; relevance_score := 0.8 |}
  | Raise _ =>
      {| query := q; content := "Research result for: " +:+ q;
         source := "Research agent"; relevance_score := 0.5 |}
  end.

Definition _extract_from_content (c : Content) (topic : string)
  : result (list ResearchResult) :=
  match c with
  | CText s =>
      Ok (if 100 <? Z.of_nat (String.length s)
          then [ {| query := "Research on " +:+ topic;
                    content := str_take 2000 s;
                    source := "Research agent analysis";
                    relevance_score := 0.7 |} ]
          else [])
  | CBlocks n _ =>
      if (100 <? Z.of_nat n) then Raise "Input should be a valid string" else Ok []
  end.

(** The inner loop over the tool calls of one message. *)
Fixpoint tool_call_results (w : World) (messages : list TMessage)
    (tool_calls : list ToolCall) : list ResearchResult :=
  match tool_calls with
  | [] => []
  | tool_call :: rest =>
      let found :=
        if decide (tc_name tool_call = "tavily_search") then
          let q := default "" (tc_query tool_call) in
          if decide (q = "") then []
          else
            let result_content := _find_tool_result messages (tc_id tool_call) in
            if decide (result_content = "") then []
            else [_create_research_result w q result_content]
        else [] in
      found ++ tool_call_results w messages rest
  end.

(** The loop over the messages: the results gathered so far, and the
    exception that ended the loop early, if any. *)
Fixpoint extract_loop (w : World) (messages : list TMessage) (topic : string)
    (todo : list TMessage) (results : list ResearchResult)
  : list ResearchResult * option string :=
  match todo with
  | [] => (results, None)
  | message :: rest =>
      let results :=
        results ++ tool_call_results w messages (default [] (t_tool_calls message)) in
      if py_in "tavily_search" (str_of_content (t_content message)) then
        match _extract_from_content (t_content message) topic with
        | Ok extracted_results =>
            extract_loop w messages topic rest (results ++ extracted_results)
        | Raise e => (results, Some e)
        end
      else extract_loop w messages topic rest results
  end.

Definition _extract_research_results_from_response (w : World)
    (response : list TMessage) (topic : string) : list ResearchResult :=
  match extract_loop w response topic response [] with
  | (results, None) => results
  | (results, Some _) =>
      let c :=
        match last response with
        | Some message => str_of_content (t_content message)
        | None => "Research completed"
        end in
      results ++ [ {| query := "Research on " +:+ topic;
                      content := str_take 1000 c;
                      source := "Generated from research agent";
                      relevance_score := 0.8 |} ]
  end.

(** The Continuation Policy as the stage evaluates it: on the iteration
    count of before the increment and the results of after the append. *)
Definition _should_continue_research (state : ResearchMultiAgentState)
    (current_results : list ResearchResult) : result bool :=
  if max_research_iterations state <=? research_iterations state + 1 then Ok false
  else
    plan ← plan_of state;
    let min_results_needed := len (subtopics plan) * 2 in
    if len current_results <? min_results_needed then Ok true
    else
      results_per_iteration ←
        floordiv (len current_results) (research_iterations state + 1);
      let expected_coverage := results_per_iteration * (research_iterations state + 1) in
      if expected_coverage <? len (subtopics plan) then Ok true
      else Ok false.

(** The state with its results replaced ([mock_state.research_results = ...]). *)
Definition with_results (state : ResearchMultiAgentState)
    (rs : list ResearchResult) : ResearchMultiAgentState := {|
  messages := messages state;
  research_plan := research_plan state;
  research_results := rs;
  research_iterations := research_iterations state;
  max_research_iterations := max_research_iterations state;
  final_report := final_report state;
  current_agent := current_agent state
|}.

(** What the normal path of [call_research_agent] returns, given the new
    results, all results and the answer of the Continuation Policy. *)
Definition research_delta (state : ResearchMultiAgentState) (plan : ResearchPlan)
    (new_results all_results : list ResearchResult) (should_continue : bool)
  : Delta :=
  let iterations := research_iterations state in
  let research_message :=
    AIMessage ("Research iteration " +:+ str_of_int (iterations + 1)
               +:+ " completed. Found " +:+ str_of_int (len new_results)
               +:+ " new results. Total results: "
               +:+ str_of_int (len all_results)) "researcher" in
  let next_agent := if should_continue then "researcher" else "writer" in
  let final_message :=
    AIMessage ("Research phase completed. Gathered "
               +:+ str_of_int (len all_results)
               +:+ " total research results across "
               +:+ str_of_int (len (subtopics plan))
               +:+ " subtopics. Ready for report writing.") "researcher" in
  {| d_messages :=
       if should_continue then [research_message]
       else [research_message; final_message];
     d_research_plan := None;
     d_research_results := Some all_results;
     d_research_iterations := Some (iterations + 1);
     d_final_report := None;
     d_current_agent := Some next_agent |}.

(** The [try] block of [call_research_agent]. The source constructs the
    agent (model, tools, prompt) before it builds the instructions and
    calls the agent after; [research_agent] stands for both steps, so
    where the construction and the instructions both raise, the delta
    here carries the message of the instructions. *)
Definition research_attempt (w : World) (state : ResearchMultiAgentState)
  : result Delta :=
  let iterations := research_iterations state in
  let max_iterations := max_research_iterations state in
  match research_plan state with
  | None => Raise "No research plan available for research execution"
  | Some plan =>
      if max_iterations <=? iterations then
        Ok {| d_messages :=
                [AIMessage ("Research completed. Maximum iterations ("
                            +:+ str_of_int max_iterations +:+ ") reached. Gathered "
                            +:+ str_of_int (len (research_results state))
                            +:+ " research results.") "researcher"];
              d_research_plan := None;
              d_research_results := None;
              d_research_iterations := Some iterations;
              d_final_report := None;
              d_current_agent := Some "writer" |}
      else
        research_instructions ← _create_research_instructions state;
        research_response ← research_agent w research_instructions;
        let new_results :=
          _extract_research_results_from_response w research_response (main_topic plan) in
        let all_results := research_results state ++ new_results in
        should_continue ←
          _should_continue_research (with_results state all_results) all_results;
        Ok (research_delta state plan new_results all_results should_continue)
  end.

Definition call_research_agent (w : World) (state : ResearchMultiAgentState)
  : Delta :=
  match research_attempt w state with
  | Ok delta => delta
  | Raise e =>
      {| d_messages := [AIMessage ("Error during research: " +:+ e) "researcher"];
         d_research_plan := None;
         d_research_results := Some (research_results state);
         d_research_iterations := Some (research_iterations state + 1);
         d_final_report := None;
         d_current_agent := Some "writer" |}
  end.

(** ** agents/planner.py *)

(** [line.split(':', 1)[1]]: what follows the first colon of a line that
    has one. *)
Fixpoint after_first_colon (line : string) : string :=
  match line with
  | EmptyString => EmptyString
  | String c rest => if ascii_eqb c ":"%char then rest else after_first_colon rest
  end.

Fixpoint _extract_main_topic_lines (lines : list string) (fallback : string) : string :=
  match lines with
  | [] => fallback
  | line :: rest =>
      if (py_in "main topic" (py_lower line) || py_in "topic:" (py_lower line))
         && py_in ":" line
         && negb (String.eqb (py_strip (after_first_colon line)) "")
      then py_strip (after_first_colon line)
      else _extract_main_topic_lines rest fallback
  end.

Definition _extract_main_topic (c fallback : string) : string :=
  _extract_main_topic_lines (split_lines c) fallback.

(** The characters [lstrip] removes from an item. The source's set also
    holds the bullet U+2022, which no text of the model contains. *)
Definition bullet_chars : string := "- *123456789. ".

(** The loop of [_extract_subtopics]: [in_section] is the flag, [found]
    the list built so far; the [break] returns it. *)
Fixpoint subtopics_loop (lines : list string) (in_section : bool)
    (found : list string) : list string :=
  match lines with
  | [] => found
  | raw :: rest =>
      let line := py_strip raw in
      if py_in "subtopic" (py_lower line) && py_in ":" line then
        subtopics_loop rest true found
      else if in_section && negb (String.eqb line "") && py_endswith ":" line
              && py_in "question" (py_lower line) then
        found
      else if in_section && negb (String.eqb line "") then
        let cleaned := py_strip (py_lstrip bullet_chars line) in
        if negb (String.eqb cleaned "") && (3 <? Z.of_nat (String.length cleaned))
        then subtopics_loop rest in_section (found ++ [cleaned])
        else subtopics_loop rest in_section found
      else subtopics_loop rest in_section found
  end.

Definition _extract_subtopics (c : string) : list string :=
  let found := subtopics_loop (split_lines c) false [] in
  let found := if decide (found = []) then ["General research topic"] else found in
  take 7 found.

Fixpoint questions_loop (lines : list string) (in_section : bool)
    (found : list string) : list string :=
  match lines with
  | [] => found
  | raw :: rest =>
      let line := py_strip raw in
      if py_in "question" (py_lower line) && py_in ":" line then
        questions_loop rest true found
      else if in_section && negb (String.eqb line "") && py_endswith ":" line
              && negb (py_in "question" (py_lower line)) then
        found
      else if in_section && negb (String.eqb line "") then
        let cleaned := py_strip (py_lstrip bullet_chars line) in
        if negb (String.eqb cleaned "") && (10 <? Z.of_nat (String.length cleaned))
        then
          let cleaned := if py_endswith "?" cleaned then cleaned else cleaned +:+ "?" in
          questions_loop rest in_section (found ++ [cleaned])
        else questions_loop rest in_section found
      else questions_loop rest in_section found
  end.

Definition _extract_research_questions (c : string) : list string :=
  let found := questions_loop (split_lines c) false [] in
  let found :=
    if decide (found = []) then ["What are the key aspects of this topic?"] else found in
  take 10 found.

(** The inner [try] of [call_planner_agent]: the three extractions, which
    need a text ([split] is not an attribute of a list of blocks). *)
Definition parse_plan (plan_content : Content) (last_user_message : string)
  : result ResearchPlan :=
  match plan_content with
  | CText c =>
      Ok {| main_topic := _extract_main_topic c last_user_message;
            subtopics := _extract_subtopics c;
            research_questions := _extract_research_questions c |}
  | CBlocks _ _ => Raise "'list' object has no attribute 'split'"
  end.

(** The outer [try] block of [call_planner_agent]. *)
Definition planner_attempt (w : World) (state : ResearchMultiAgentState)
  : result Delta :=
  let user_messages := filter (fun m => is_user m = true) (messages state) in
  match last user_messages with
  | None => Raise "No user message found for research planning"
  | Some last_message =>
      let last_user_message := text last_message in
      plan_content ← planner_model w last_user_message;
      let plan :=
        match parse_plan plan_content last_user_message with
        | Ok plan => plan
        | Raise _ =>
            {| main_topic := last_user_message;
               subtopics := ["Research aspect of: " +:+ last_user_message];
               research_questions :=
                 ["What information is available about: " +:+ last_user_message +:+ "?"] |}
        end in
      Ok {| d_messages :=
              [AIMessage ("Research plan created:" +:+ nl +:+ nl
                          +:+ str_of_content plan_content) "planner"];
            d_research_plan := Some plan;
            d_research_results := None;
            d_research_iterations := None;
            d_final_report := None;
            d_current_agent := Some "researcher" |}
  end.

Definition call_planner_agent (w : World) (state : ResearchMultiAgentState)
  : Delta :=
  match planner_attempt w state with
  | Ok delta => delta
  | Raise e =>
      let user_query :=
        match last (messages state) with
        | Some last_msg => text last_msg
        | None => "Unknown query"
        end in
      {| d_messages := [AIMessage ("Error creating research plan: " +:+ e) "planner"];
         d_research_plan :=
           Some {| main_topic := user_query;
                   subtopics := ["General research on: " +:+ user_query];
                   research_questions :=
                     ["What information is available about: " +:+ user_query +:+ "?"] |};
         d_research_results := None;
         d_research_iterations := None;
         d_final_report := None;
         d_current_agent := Some "researcher" |}
  end.

(** ** agents/writer.py *)

(** The loop over [enumerate(research_results, 1)] that builds the
    numbered source list; [unique_sources] is the set of those listed. *)
Fixpoint sources_loop (i : Z) (results : list ResearchResult)
    (unique_sources : gset string) (sources_section : string) : string :=
  match results with
  | [] => sources_section
  | r :: rest =>
      if bool_decide (source r ∉ unique_sources)
         && bool_decide (source r ≠ "Unknown source")
      then sources_loop (i + 1) rest ({[ source r ]} ∪ unique_sources)
             (sources_section +:+ str_of_int i +:+ ". " +:+ source r +:+ nl)
      else sources_loop (i + 1) rest unique_sources sources_section
  end.

Definition sources_heading : string := nl +:+ nl +:+ "## Sources" +:+ nl +:+ nl.

Definition report_metadata (w : World) (state : ResearchMultiAgentState) : string :=
  let topic :=
    match research_plan state with
    | Some plan => main_topic plan
    | None => "Unknown Topic"
    end in
  "# Research Report" +:+ nl +:+ nl
  +:+ "**Topic:** " +:+ topic +:+ nl
  +:+ "**Research Date:** " +:+ current_date w +:+ nl
  +:+ "**Sources Consulted:** " +:+ str_of_int (len (research_results state))
  +:+ " research sources" +:+ nl
  +:+ "**Research Iterations:** " +:+ str_of_int (research_iterations state) +:+ nl
  +:+ nl +:+ "---" +:+ nl +:+ nl.

Definition _enhance_report_formatting (w : World) (report : string)
    (state : ResearchMultiAgentState) : string :=
  let metadata := report_metadata w state in
  let report :=
    if negb (bool_decide (research_results state = []))
       && negb (py_in "sources:" (py_lower report))
    then report +:+ sources_loop 1 (research_results state) ∅ sources_heading
    else report in
  metadata +:+ report.

(** The entries of the key findings, numbered from [i]. *)
Fixpoint findings_loop (i : Z) (results : list ResearchResult) : string :=
  match results with
  | [] => ""
  | r :: rest =>
      nl +:+ str_of_int i +:+ ". **" +:+ query r +:+ "**" +:+ nl
      +:+ "   - " +:+ str_take 200 (content r) +:+ "..." +:+ nl
      +:+ "   - Source: " +:+ source r +:+ nl
      +:+ findings_loop (i + 1) rest
  end.

Definition _create_fallback_report (state : ResearchMultiAgentState)
    (error_msg : string) : string :=
  let user_messages := filter (fun m => is_user m = true) (messages state) in
  let original_query :=
    match user_messages with
    | first_msg :: _ => text first_msg
    | [] => "Unknown query"
    end in
  let topic :=
    match research_plan state with
    | Some plan => main_topic plan
    | None => original_query
    end in
  let head :=
    "# Research Report - Summary" +:+ nl +:+ nl
    +:+ "**Topic:** " +:+ topic +:+ nl
    +:+ "**Status:** Partial report due to processing error" +:+ nl +:+ nl
    +:+ "## Summary" +:+ nl +:+ nl
    +:+ "This is a summary report generated after encountering an error during full report generation."
    +:+ nl +:+ nl
    +:+ "**Original Query:** " +:+ original_query +:+ nl +:+ nl in
  let plan_part :=
    match research_plan state with
    | Some plan =>
        "## Research Plan" +:+ nl +:+ nl
        +:+ "**Main Topic:** " +:+ main_topic plan +:+ nl +:+ nl
        +:+ "**Subtopics Investigated:**" +:+ nl
        +:+ py_join nl (map (fun subtopic => "- " +:+ subtopic) (subtopics plan))
        +:+ nl +:+ nl
        +:+ "**Key Research Questions:**" +:+ nl
        +:+ py_join nl (map (fun question => "- " +:+ question)
                            (take 5 (research_questions plan)))
        +:+ nl +:+ nl
    | None => ""
    end in
  let findings_part :=
    match research_results state with
    | [] => ""
    | _ :: _ =>
        "## Research Findings Summary" +:+ nl +:+ nl
        +:+ "**Total Sources Consulted:** "
        +:+ str_of_int (len (research_results state)) +:+ nl
        +:+ "**Research Iterations Completed:** "
        +:+ str_of_int (research_iterations state) +:+ nl +:+ nl
        +:+ "**Key Findings:**" +:+ nl
        +:+ findings_loop 1 (take 3 (research_results state))
    end in
  head +:+ plan_part +:+ findings_part
  +:+ nl +:+ "## Note" +:+ nl +:+ nl
  +:+ "This report was generated in summary mode due to a processing error: "
  +:+ error_msg +:+ nl +:+ nl
  +:+ "For a complete analysis, please retry the research request." +:+ nl.

(** The [try] block of [call_writer_agent]. *)
Definition writer_attempt (w : World) (state : ResearchMultiAgentState)
  : result Delta :=
  let user_messages := filter (fun m => is_user m = true) (messages state) in
  match user_messages with
  | [] => Raise "No user query found for report writing"
  | first_message :: _ =>
      let original_query := text first_message in
      match research_plan state with
      | None => Raise "No research plan available for report writing"
      | Some _ =>
          report ← writer_model w state;
          let enhanced_report := _enhance_report_formatting w report state in
          Ok {| d_messages :=
                  [AIMessage ("Research report completed for: " +:+ original_query
                              +:+ nl +:+ nl +:+ enhanced_report) "writer"];
                d_research_plan := None;
                d_research_results := None;
                d_research_iterations := None;
                d_final_report := Some enhanced_report;
                d_current_agent := Some "completed" |}
      end
  end.

Definition call_writer_agent (w : World) (state : ResearchMultiAgentState)
  : Delta :=
  match writer_attempt w state with
  | Ok delta => delta
  | Raise e =>
      let fallback_report := _create_fallback_report state e in
      {| d_messages :=
           [AIMessage ("Report generation encountered an error, but a summary report was created:"
                       +:+ nl +:+ nl +:+ fallback_report) "writer"];
         d_research_plan := None;
         d_research_results := None;
         d_research_iterations := None;
         d_final_report := Some fallback_report;
         d_current_agent := Some "completed" |}
  end.

(** ** graph.py *)

(** The state as a function gets it: the [dict] that the graph builds
    for its [TypedDict] schema, or an object with the keys as attributes. *)
Inductive StateValue :=
  | AsDict (state : ResearchMultiAgentState)
  | AsObject (state : ResearchMultiAgentState).

(** The router of the conditional edge out of the researcher. It reads
    the state by attribute, and its first access is
    [state.research_iterations]: on a [dict] that is an [AttributeError]. *)
Definition _should_continue_research_decision (state : StateValue)
  : result string :=
  match state with
  | AsDict _ => Raise "'dict' object has no attribute 'research_iterations'"
  | AsObject state =>
      if max_research_iterations state <=? research_iterations state then Ok "write"
      else
        match research_plan state with
        | None => Ok "write"
        | Some plan =>
            let min_results_per_subtopic := 2 in
            let required_results := len (subtopics plan) * min_results_per_subtopic in
            let current_results := len (research_results state) in
            if current_results <? required_results then Ok "continue"
            else if decide (current_agent state = "writer") then Ok "write"
            else Ok "continue"
        end
  end.

Inductive NodeName := START | Planner | Researcher | Writer | END.

#[global] Instance NodeName_eq_dec : EqDecision NodeName.
Proof. solve_decision. Defined.

(** What the builder collects: the nodes with their functions, the fixed
    edges, and the conditional edges (source, router, and the map from the
    router's answers to targets). *)
Record StateGraph := {
  nodes : list (NodeName * (World -> ResearchMultiAgentState -> Delta));
  edges : list (NodeName * NodeName);
  conditional_edges :
    list (NodeName * ((StateValue -> result string) * list (string * NodeName)))
}.

Definition create_research_multi_agent_graph : StateGraph := {|
  nodes := [(Planner, call_planner_agent);
            (Researcher, call_research_agent);
            (Writer, call_writer_agent)];
  edges := [(START, Planner); (Planner, Researcher);
            (Researcher, Writer); (Writer, END)];
  conditional_edges := []
|}.

Definition create_research_multi_agent_graph_with_loops : StateGraph := {|
  nodes := [(Planner, call_planner_agent);
            (Researcher, call_research_agent);
            (Writer, call_writer_agent)];
  edges := [(START, Planner); (Planner, Researcher); (Writer, END)];
  conditional_edges :=
    [(Researcher, (_should_continue_research_decision,
                   [("continue", Researcher); ("write", Writer)]))]
|}.

(** The two constructors of graph.py under one name. *)
Definition workflow_graph (with_loops : bool) : StateGraph :=
  if with_loops then create_research_multi_agent_graph_with_loops
  else create_research_multi_agent_graph.

(** Where the controller goes after node [n] has produced [state]: the
    conditional edge of [n] when it has one, else its fixed edge. The
    router of a conditional edge gets the state as the [dict] of the
    schema; when it raises, the run ends with its exception and there is
    no successor. *)
Definition successor (g : StateGraph) (n : NodeName)
    (state : ResearchMultiAgentState) : option NodeName :=
  match assoc n (conditional_edges g) with
  | Some (path, path_map) =>
      match path (AsDict state) with
      | Ok answer => assoc answer path_map
      | Raise _ => None
      end
  | None => assoc n (edges g)
  end.

(** The controller from node [n] on: invoke the node, merge its delta,
    follow the edge, until [END]. It returns the final state and the nodes
    invoked, in order; [fuel] bounds the number of invocations. [None]: the
    fuel ran out, a router raised, or the graph has no node or no edge to
    follow. The
    recursion limit that LangGraph puts on a run is a setting of the
    caller and is left out. *)
Fixpoint run_from (g : StateGraph) (w : World) (fuel : nat) (n : NodeName)
    (state : ResearchMultiAgentState)
  : option (ResearchMultiAgentState * list NodeName) :=
  match n with
  | END => Some (state, [])
  | _ =>
      match fuel with
      | O => None
      | S fuel' =>
          f ← assoc n (nodes g);
          let state' := merge state (f w state) in
          n' ← successor g n state';
          '(final, trace) ← run_from g w fuel' n' state';
          Some (final, n :: trace)
      end
  end.

(** A run of the compiled graph on an input state. *)
Definition run (g : StateGraph) (w : World) (fuel : nat)
    (state : ResearchMultiAgentState)
  : option (ResearchMultiAgentState * list NodeName) :=
  n ← assoc START (edges g);
  run_from g w fuel n state.

(** How often a node occurs in a trace. *)
Definition invocations (n : NodeName) (trace : list NodeName) : Z :=
  len (filter (fun m => m = n) trace).

(** ** Worlds and inputs of the examples *)

(** The double quote character, for JSON payloads. *)
Definition dq : string := String "034"%char EmptyString.

(** A [float_field] that rejects whatever is not a [float]. *)
Definition floats_only (v : json) : option pyfloat := None.

(** A world in which every collaborator is out of reach. *)
Definition offline_world : World := {|
  planner_model := fun _ => Raise "connection refused";
  research_agent := fun _ => Raise "connection refused";
  writer_model := fun _ => Raise "connection refused";
  json_loads := fun _ => None;
  float_field := floats_only;
  current_date := "2025-01-01"
|}.

Definition sample_plan (n_subtopics : nat) : ResearchPlan := {|
  main_topic := "quantum computing trends";
  subtopics := replicate n_subtopics "quantum hardware";
  research_questions := ["What are the key aspects of this topic?"]
|}.

Definition sample_result (src : string) : ResearchResult := {|
  query := "quantum hardware";
  content := "Qubit counts keep growing.";
  source := src;
  relevance_score := 0.8
|}.

(** A state after planning, with the given counters, a plan of [s]
    subtopics and [r] results. *)
Definition sample_state (iterations max_iterations : Z) (s r : nat)
  : ResearchMultiAgentState := {|
  messages := [HumanMessage "quantum computing trends"];
  research_plan := Some (sample_plan s);
  research_results := replicate r (sample_result "http://a");
  research_iterations := iterations;
  max_research_iterations := max_iterations;
  final_report := None;
  current_agent := "researcher"
|}.

(** ** agents/writer.py: the research summary *)

(** [s.split()]: the words between runs of whitespace; [word] is the word
    being read. *)
Fixpoint split_words (s word : string) : list string :=
  match s with
  | EmptyString => if decide (word = "") then [] else [word]
  | String c s' =>
      if char_in c py_whitespace then
        if decide (word = "") then split_words s' "" else word :: split_words s' ""
      else split_words s' (word +:+ String c EmptyString)
  end.

Definition py_words (s : string) : list string := split_words s "".

(** The test of the inner loop: one of the first three words of the
    subtopic occurs, in lower case, in the query in lower case. *)
Definition subtopic_matches (r : ResearchResult) (subtopic : string) : bool :=
  existsb (fun word => py_in (py_lower word) (py_lower (query r)))
          (take 3 (py_words subtopic)).

(** The first subtopic of the plan that matches, if any. *)
Definition matched_subtopic (plan : ResearchPlan) (r : ResearchResult)
  : option string :=
  find (subtopic_matches r) (subtopics plan).

(** [subtopic_results[key].append(r)], creating the entry at the end of the
    dict when the key is new. *)
Fixpoint bucket_append (key : string) (r : ResearchResult)
    (buckets : list (string * list ResearchResult))
  : list (string * list ResearchResult) :=
  match buckets with
  | [] => [(key, [r])]
  | (k, rs) :: rest =>
      if decide (k = key) then (k, rs ++ [r]) :: rest
      else (k, rs) :: bucket_append key r rest
  end.

(** The grouping loop: the dict of the subtopics (in insertion order) and
    the list of the other results. *)
Fixpoint group_results (plan : ResearchPlan) (results : list ResearchResult)
    (subtopic_results : list (string * list ResearchResult))
    (other_results : list ResearchResult)
  : list (string * list ResearchResult) * list ResearchResult :=
  match results with
  | [] => (subtopic_results, other_results)
  | r :: rest =>
      match matched_subtopic plan r with
      | Some subtopic =>
          if decide (subtopic = "") then
            group_results plan rest subtopic_results (other_results ++ [r])
          else
            group_results plan rest (bucket_append subtopic r subtopic_results)
              other_results
      | None => group_results plan rest subtopic_results (other_results ++ [r])
      end
  end.

(** The four parts of one listed result, numbered from [i]. *)
Fixpoint summary_items (preview : nat) (i : Z) (results : list ResearchResult)
  : list string :=
  match results with
  | [] => []
  | r :: rest =>
      [str_of_int i +:+ ". Query: " +:+ query r;
       "   Content: " +:+ str_take preview (content r) +:+ "...";
       "   Source: " +:+ source r;
       ""]
      ++ summary_items preview (i + 1) rest
  end.

Definition summary_parts (groups : list (string * list ResearchResult))
    (other_results : list ResearchResult) : list string :=
  flat_map (fun '(subtopic, results) =>
              (nl +:+ "--- " +:+ subtopic +:+ " ---")
              :: summary_items 500 1 (take 3 results)) groups
  ++ match other_results with
     | [] => []
     | _ :: _ =>
         (nl +:+ "--- Additional Research ---")
         :: summary_items 300 1 (take 5 other_results)
     end.

Definition _prepare_research_summary (state : ResearchMultiAgentState)
  : result string :=
  match research_results state with
  | [] => Ok "No research results available."
  | _ :: _ =>
      plan ← plan_of state;
      let grouped := group_results plan (research_results state) [] [] in
      Ok (py_join nl (summary_parts grouped.1 grouped.2))
  end.

(** ** security/auth.py *)

Record User := { user_id : string; user_name : string }.

Definition VALID_TOKENS : gmap string User :=
  list_to_map
    [("user1-token", {| user_id := "user1"; user_name := "Alice" |});
     ("user2-token", {| user_id := "user2"; user_name := "Bob" |});
     ("admin-token", {| user_id := "admin"; user_name := "Admin" |})].

(** The first word of a text that does not begin with whitespace, and
    what follows the word. *)
Fixpoint first_word (s : string) : string * string :=
  match s with
  | EmptyString => (EmptyString, EmptyString)
  | String c s' =>
      if char_in c py_whitespace then (EmptyString, s)
      else let '(word, rest) := first_word s' in (String c word, rest)
  end.

(** [s.split(maxsplit=1)]: the first word, and then the rest of the text
    from its first character that is not whitespace, when there is one. *)
Definition split_maxsplit_1 (s : string) : list string :=
  let s := py_lstrip py_whitespace s in
  if decide (s = "") then []
  else
    let '(word, rest) := first_word s in
    let rest := py_lstrip py_whitespace rest in
    if decide (rest = "") then [word] else [word; rest].

(** [get_current_user]: the identity, or the detail of the 401 response. *)
Definition get_current_user (authorization : option string) : result string :=
  match authorization with
  | None => Raise "Authorization header required"
  | Some header =>
      if decide (header = "") then Raise "Authorization header required"
      else
        match split_maxsplit_1 header with
        | [scheme; token] =>
            if decide (py_lower scheme = "bearer") then
              match VALID_TOKENS !! token with
              | Some user_data => Ok (user_id user_data)
              | None => Raise "Invalid token"
              end
            else Raise "Only Bearer token authentication is supported"
        | _ => Raise "Invalid authorization header format"
        end
  end.

(** ** shared/checkpoint.py *)

(** [s[n:]] *)
Fixpoint str_drop (n : nat) (s : string) : string :=
  match n, s with
  | O, _ => s
  | S n', String _ s' => str_drop n' s'
  | S _, EmptyString => EmptyString
  end.

(** [s.replace(old, new, 1)] for a non-empty [old]: the leftmost
    occurrence is replaced. *)
Fixpoint py_replace_first (old new s : string) : string :=
  if py_startswith old s then new +:+ str_drop (String.length old) s
  else
    match s with
    | EmptyString => EmptyString
    | String c s' => String c (py_replace_first old new s')
    end.

(** The connection string that [get_postgres_checkpointer] hands to the
    saver. *)
Definition checkpointer_url (database_url : string) : result string :=
  if decide (database_url = "") then
    Raise "DATABASE_URL is not configured in settings"
  else if py_startswith "postgres://" database_url then
    Ok (py_replace_first "postgres://" "postgresql://" database_url)
  else Ok database_url.

(** ** Notions of the statements, and more inputs of the examples *)

(** A state whose budget is zero. *)
Definition zero_budget_state : ResearchMultiAgentState := {|
  messages := [HumanMessage "quantum computing trends"];
  research_plan := None;
  research_results := [];
  research_iterations := 0;
  max_research_iterations := 0;
  final_report := None;
  current_agent := "planner"
|}.

(** A state in which an assistant message follows the user's query. *)
Definition interrupted_state : ResearchMultiAgentState :=
  initial_state [HumanMessage "quantum computing trends";
                 AIMessage "Noted." "assistant"].

(** The text of the last user message, when there is one. *)
Definition last_user_message (state : ResearchMultiAgentState) : option string :=
  text <$> last (filter (fun m => is_user m = true) (messages state)).

(** The single-item plan that the claim describes, built from a query. *)
Definition single_item_plan (subtopic_prefix user_query : string) : ResearchPlan := {|
  main_topic := user_query;
  subtopics := [subtopic_prefix +:+ user_query];
  research_questions := ["What information is available about: " +:+ user_query +:+ "?"]
|}.

(** The test by which a line opens a section: the line, stripped, holds
    the keyword (in any case) and a colon. *)
Definition opens_section (keyword line : string) : bool :=
  py_in keyword (py_lower (py_strip line)) && py_in ":" (py_strip line).

(** The two sections of a plan text, each with its keyword, its extractor
    and the fallback item of that extractor. *)
Inductive PlanSection := SubtopicsSection | QuestionsSection.

Definition section_keyword (sec : PlanSection) : string :=
  match sec with
  | SubtopicsSection => "subtopic"
  | QuestionsSection => "question"
  end.

Definition section_extractor (sec : PlanSection) : string -> list string :=
  match sec with
  | SubtopicsSection => _extract_subtopics
  | QuestionsSection => _extract_research_questions
  end.

Definition section_fallback (sec : PlanSection) : string :=
  match sec with
  | SubtopicsSection => "General research topic"
  | QuestionsSection => "What are the key aspects of this topic?"
  end.

(** One line of the source list. *)
Definition source_entry (i : Z) (src : string) : string :=
  str_of_int i +:+ ". " +:+ src +:+ nl.

(** A result is listed when its source is not the literal
    "Unknown source" and no earlier result has the same source. *)
Definition listed (earlier : list ResearchResult) (r : ResearchResult) : bool :=
  bool_decide (source r ≠ "Unknown source")
  && bool_decide (source r ∉ (source <$> earlier)).

(** The lines of the source list: each listed result, numbered by its
    position among all results. *)
Fixpoint source_entries (earlier rest : list ResearchResult) : string :=
  match rest with
  | [] => ""
  | r :: rest' =>
      (if listed earlier r then source_entry (len earlier + 1) (source r) else "")
      +:+ source_entries (earlier ++ [r]) rest'
  end.

(** A transcript: a tool call, the tool's answer, and the agent's summary
    of what it did. *)
Definition search_call : ToolCall :=
  {| tc_name := "tavily_search"; tc_query := Some "quantum hardware";
     tc_id := Some "call_1" |}.

Definition summary_text : string :=
  "I ran tavily_search on quantum hardware and read the result: qubit counts keep growing and error rates keep falling.".

Definition transcript_of (payload : string) : list TMessage :=
  [ {| t_content := CText ""; t_tool_calls := Some [search_call];
       t_tool_call_id := None |};
    {| t_content := CText payload; t_tool_calls := None;
       t_tool_call_id := Some "call_1" |};
    {| t_content := CText summary_text; t_tool_calls := Some [];
       t_tool_call_id := None |} ].

(** The Result synthesized from the text of a message. *)
Definition analysis_result (topic s : string) : ResearchResult :=
  {| query := "Research on " +:+ topic;
     content := str_take 2000 s;
     source := "Research agent analysis";
     relevance_score := 0.7 |}.

(** What one message contributes: the Results of its located tool calls,
    and then the Result synthesized from its text when the text mentions
    the search tool and is longer than 100 characters. *)
Definition message_results (w : World) (messages : list TMessage) (topic : string)
    (message : TMessage) : list ResearchResult :=
  tool_call_results w messages (default [] (t_tool_calls message))
  ++ match t_content message with
     | CText s =>
         if py_in "tavily_search" s && (100 <? Z.of_nat (String.length s))
         then [analysis_result topic s] else []
     | CBlocks _ _ => []
     end.

(** The messages on which [_extract_from_content] raises: more than 100
    content blocks whose rendering mentions the search tool. *)
Definition breaks_extraction (message : TMessage) : bool :=
  match t_content message with
  | CText _ => false
  | CBlocks n rendering => py_in "tavily_search" rendering && (100 <? Z.of_nat n)
  end.

(** The object whose fields [_create_research_result] reads: the first
    item of a decoded list, or the decoded object itself. *)
Definition payload_record (w : World) (raw : string) : option (list (string * json)) :=
  match json_loads w raw with
  | Some (JArr (JObj fields :: _)) => Some fields
  | Some (JObj fields) => Some fields
  | _ => None
  end.





(** A payload: an object with a score of 5.0. *)
Definition score_payload : string := "{" +:+ dq +:+ "score" +:+ dq +:+ ": 5.0}".

(** A world whose decoder knows two payloads, [score_payload] and a list
    of one number, and whose agent answers with a transcript. *)
Definition tavily_world : World := {|
  planner_model := fun _ => Raise "connection refused";
  research_agent := fun _ => Ok (transcript_of score_payload);
  writer_model := fun _ => Raise "connection refused";
  json_loads := fun raw =>
    if decide (raw = score_payload) then Some (JObj [("score", JFloat 5)])
    else if decide (raw = "[1]") then Some (JArr [JInt 1])
    else None;
  float_field := floats_only;
  current_date := "2025-01-01"
|}.


(** A message of more than 100 content blocks whose rendering mentions
    the search tool. *)
Definition blocks_message : TMessage :=
  {| t_content := CBlocks 101 "[{'type': 'text', 'text': 'tavily_search found ...'}, ...]";
     t_tool_calls := Some [];
     t_tool_call_id := None |}.

(** Texts without whitespace, and texts of whitespace only. *)
Definition no_whitespace (s : string) : Prop :=
  Forall (fun c => char_in c py_whitespace = false) (String.list_ascii_of_string s).

Definition all_whitespace (s : string) : Prop :=
  Forall (fun c => char_in c py_whitespace = true) (String.list_ascii_of_string s).

(** A world whose models answer. *)
Definition answering_world : World := {|
  planner_model := fun _ =>
    Ok (CText ("Main Topic: Quantum computing" +:+ nl +:+ "Subtopics:" +:+ nl
               +:+ "1. Quantum hardware" +:+ nl +:+ "- Error correction" +:+ nl
               +:+ "Research Questions:" +:+ nl
               +:+ "1. How many qubits do current machines have"));
  research_agent := fun _ => Ok (transcript_of "Qubit counts keep growing.");
  writer_model := fun _ => Ok "Findings.";
  json_loads := fun _ => None;
  float_field := floats_only;
  current_date := "2025-01-01"
|}.

(** What the nodes keep of the results, the counter and the plan. *)
Definition run_keeps (a b : ResearchMultiAgentState) : Prop :=
  research_results a `prefix_of` research_results b
  /\ research_iterations a <= research_iterations b
  /\ max_research_iterations b = max_research_iterations a
  /\ (is_Some (research_plan a) ->
      is_Some (research_plan b)
      /\ research_iterations b
         <= Z.max (research_iterations a) (max_research_iterations a)).

(** * Properties *)

(** ** The primitives on examples *)

Example py_split_ex : split_lines ("a" +:+ nl +:+ nl +:+ "b") = ["a"; ""; "b"].
Proof. reflexivity. Qed.

Example py_strip_ex : py_strip "  Sub Topics:  " = "Sub Topics:".
Proof. reflexivity. Qed.

Example py_lower_ex : py_lower "SubTopics: A-Z" = "subtopics: a-z".
Proof. reflexivity. Qed.

Example py_slice_ex : py_slice [1; 2; 3; 4; 5] 2 4 = [3; 4] /\ py_slice [1; 2; 3] (-2) 7 = [2; 3].
Proof. split; reflexivity. Qed.

Example py_endswith_ex :
  py_endswith ":" "Subtopics:" = true /\ py_endswith "?" "Why" = false
  /\ py_rstrip py_whitespace "a b  " = "a b".
Proof. repeat split. Qed.

Example str_of_int_ex : str_of_int 12 = "12" /\ str_of_int (-3) = "-3".
Proof. split; reflexivity. Qed.

(** ** The Continuation Policy *)

Section ContinuationPolicy.

Variable state : ResearchMultiAgentState.
Variable plan : ResearchPlan.
Variable current_results : list ResearchResult.

(** X23, rule 1: when the iteration just done reaches the budget
    ([research_iterations + 1 >= max_research_iterations]) the policy
    advances, whatever the plan and the results, and also without a plan. *)
Lemma policy_budget :
  max_research_iterations state <= research_iterations state + 1 ->
  _should_continue_research state current_results = Ok false.
Proof.
  intros Hk. unfold _should_continue_research.
  destruct (Z.leb_spec (max_research_iterations state)
              (research_iterations state + 1)); [reflexivity | lia].
Qed.

Hypothesis Hplan : research_plan state = Some plan.
Hypothesis Hbudget : research_iterations state + 1 < max_research_iterations state.

(** X24, rule 3: below the budget, with a plan, the policy continues as
    long as there are fewer than two results per subtopic. *)
Lemma policy_needs_results :
  len current_results < 2 * len (subtopics plan) ->
  _should_continue_research state current_results = Ok true.
Proof.
  intros Hr. unfold _should_continue_research, plan_of.
  destruct (Z.leb_spec (max_research_iterations state)
              (research_iterations state + 1)); [lia|].
  rewrite Hplan. simpl.
  destruct (Z.ltb_spec (len current_results) (len (subtopics plan) * 2));
    [reflexivity | lia].
Qed.

(** Rule 4: with two results per subtopic, the policy compares the
    results rounded down to a multiple of the iteration count with the
    subtopics. *)
Lemma policy_coverage :
  research_iterations state + 1 <> 0 ->
  2 * len (subtopics plan) <= len current_results ->
  _should_continue_research state current_results
  = Ok (len current_results / (research_iterations state + 1)
          * (research_iterations state + 1) <? len (subtopics plan)).
Proof.
  intros Hk Hr. unfold _should_continue_research, plan_of, floordiv.
  destruct (Z.leb_spec (max_research_iterations state)
              (research_iterations state + 1)); [lia|].
  rewrite Hplan. simpl.
  destruct (Z.ltb_spec (len current_results) (len (subtopics plan) * 2)); [lia|].
  destruct (Z.eqb_spec (research_iterations state + 1) 0); [lia|].
  simpl. destruct (_ <? _); reflexivity.
Qed.

End ContinuationPolicy.

(** C3, as stated, fails: in the third iteration ([k = 3]) with one
    subtopic and two results, rule 3 is satisfied ([2 >= 2 * 1]) and rule
    4 rounds the two results down to [2 // 3 * 3 = 0 < 1], so the policy
    continues. *)
Lemma rule4_continues_counterexample :
  let state := sample_state 2 5 1 2 in
  research_iterations state + 1 < max_research_iterations state
  /\ research_plan state = Some (sample_plan 1)
  /\ subtopics (sample_plan 1) <> []
  /\ 2 * len (subtopics (sample_plan 1)) <= len (research_results state)
  /\ _should_continue_research state (research_results state) = Ok true.
Proof. cbn. repeat split; try lia; discriminate. Qed.

(** C3 (amended): for every updated iteration count [k] with
    [0 < k < max_iterations], every plan with [s > 0] subtopics and every
    result count [r >= 2 * s], the policy evaluated inside the Research
    stage returns continue exactly when [(r // k) * k < s], and advance
    otherwise: rule 4 rounds [r] down to a multiple of [k]. *)
Theorem rule4_decision (state : ResearchMultiAgentState) (plan : ResearchPlan)
    (current_results : list ResearchResult) :
  let k := research_iterations state + 1 in
  let s := len (subtopics plan) in
  let r := len current_results in
  research_plan state = Some plan ->
  0 < k < max_research_iterations state ->
  0 < s ->
  2 * s <= r ->
  _should_continue_research state current_results = Ok (r / k * k <? s).
Proof.
  intros k s r Hplan Hk Hs Hr. subst k s r.
  apply policy_coverage; [assumption | lia | lia | assumption].
Qed.

Lemma rule4_decision_witness :
  _should_continue_research (sample_state 0 5 1 2)
    (research_results (sample_state 0 5 1 2)) = Ok false.
Proof.
  apply (rule4_decision (sample_state 0 5 1 2) (sample_plan 1)
           (research_results (sample_state 0 5 1 2)));
    [reflexivity | cbn; lia | unfold len; cbn; lia | unfold len; cbn; lia].
Defined.

(** ** The Research stage *)

(** C4, as stated, fails on the skip path: entered at the budget, the
    stage returns the iteration count it was given. *)
Lemma skip_keeps_iterations_counterexample :
  let state := sample_state 5 5 1 2 in
  d_research_iterations (call_research_agent offline_world state)
    = Some (research_iterations state)
  /\ d_research_iterations (call_research_agent offline_world state)
    <> Some (research_iterations state + 1).
Proof. cbn. split; [reflexivity | discriminate]. Qed.

Lemma research_delta_iterations (w : World) (state : ResearchMultiAgentState) :
  d_research_iterations (call_research_agent w state)
  = Some (match research_plan state with
          | Some _ =>
              if max_research_iterations state <=? research_iterations state
              then research_iterations state
              else research_iterations state + 1
          | None => research_iterations state + 1
          end).
Proof.
  unfold call_research_agent, research_attempt.
  destruct (research_plan state) as [plan|]; [|reflexivity].
  destruct (_ <=? _); [reflexivity|].
  destruct (_create_research_instructions state) as [instr|e]; [|reflexivity].
  cbn. destruct (research_agent w instr) as [resp|e]; [|reflexivity].
  cbn. destruct (_should_continue_research _ _) as [b|e]; reflexivity.
Qed.

(** C4 (amended): one invocation of the Research stage returns
    [research_iterations + 1] on the path of a successful research and on
    every exception path (a missing plan included); on the skip path,
    taken when a plan is present and
    [research_iterations >= max_research_iterations] at entry, it returns
    [research_iterations] unchanged. *)
Theorem research_iterations_delta (w : World) (state : ResearchMultiAgentState) :
  d_research_iterations (call_research_agent w state)
  = Some (if bool_decide (is_Some (research_plan state))
             && (max_research_iterations state <=? research_iterations state)
          then research_iterations state
          else research_iterations state + 1).
Proof.
  rewrite research_delta_iterations.
  destruct (research_plan state); [|reflexivity].
  rewrite bool_decide_eq_true_2 by eauto. reflexivity.
Qed.

(** The other fields of the stage's delta that the controller relies on. *)
Lemma research_delta_plan (w : World) (state : ResearchMultiAgentState) :
  d_research_plan (call_research_agent w state) = None
  /\ d_final_report (call_research_agent w state) = None.
Proof.
  unfold call_research_agent, research_attempt.
  destruct (research_plan state) as [plan|]; [|split; reflexivity].
  destruct (_ <=? _); [split; reflexivity|].
  destruct (_create_research_instructions state) as [instr|e]; [|split; reflexivity].
  cbn. destruct (research_agent w instr) as [resp|e]; [|split; reflexivity].
  cbn. destruct (_should_continue_research _ _) as [b|e]; split; reflexivity.
Qed.

(** The normal path, spelled out: with a plan, below the budget, when the
    instructions are built, the agent answers and the policy returns. *)
Lemma research_normal_path (w : World) (state : ResearchMultiAgentState)
    (plan : ResearchPlan) (instr : Instructions) (response : list TMessage)
    (b : bool) :
  let new_results :=
    _extract_research_results_from_response w response (main_topic plan) in
  let all_results := research_results state ++ new_results in
  research_plan state = Some plan ->
  research_iterations state < max_research_iterations state ->
  _create_research_instructions state = Ok instr ->
  research_agent w instr = Ok response ->
  _should_continue_research (with_results state all_results) all_results = Ok b ->
  call_research_agent w state = research_delta state plan new_results all_results b.
Proof.
  intros new_results all_results Hplan Hlt Hinstr Hagent Hpolicy.
  unfold call_research_agent, research_attempt.
  rewrite Hplan.
  destruct (Z.leb_spec (max_research_iterations state) (research_iterations state));
    [lia|].
  rewrite Hinstr. cbn. rewrite Hagent. cbn.
  fold new_results. fold all_results. rewrite Hpolicy. reflexivity.
Qed.

(** ** The stage and the router *)

(** C2 on a failing input: the state holds a plan of two subtopics and no
    Results, and the first research iteration brings two. The Continuation
    Policy inside the stage returns [True] and the stage names the
    researcher; the router, which the graph gives the merged state as a
    [dict], raises [AttributeError] at [state.research_iterations] and
    computes no decision, so the conditional edge has no target. *)
Theorem router_raises_where_stage_continues :
  let state := sample_state 0 5 2 0 in
  let delta := call_research_agent answering_world state in
  let all_results := research_results (merge state delta) in
  _should_continue_research (with_results state all_results) all_results = Ok true
  /\ d_current_agent delta = Some "researcher"
  /\ _should_continue_research_decision (AsDict (merge state delta))
     = Raise "'dict' object has no attribute 'research_iterations'"
  /\ successor create_research_multi_agent_graph_with_loops Researcher
       (merge state delta) = None.
Proof. repeat split. Qed.

(** Given the state as an object with attributes, the router follows the
    stage wherever the Continuation Policy inside the stage returns. *)
Lemma router_follows_stage_on_object (state : ResearchMultiAgentState)
    (plan : ResearchPlan) (new_results all_results : list ResearchResult) (b : bool) :
  _should_continue_research (with_results state all_results) all_results = Ok b ->
  _should_continue_research_decision
    (AsObject (merge state (research_delta state plan new_results all_results b)))
  = Ok (if b then "continue" else "write").
Proof.
  intros Hpolicy.
  unfold _should_continue_research, plan_of, floordiv in Hpolicy.
  unfold _should_continue_research_decision. cbn in *.
  destruct (Z.leb_spec (max_research_iterations state)
              (research_iterations state + 1)) as [Hmax|Hmax].
  - injection Hpolicy as <-. reflexivity.
  - destruct (research_plan state) as [p|]; [|discriminate].
    cbn in Hpolicy.
    destruct (len all_results <? len (subtopics p) * 2).
    + injection Hpolicy as <-. reflexivity.
    + destruct (research_iterations state + 1 =? 0); [discriminate|].
      cbn in Hpolicy. destruct b; reflexivity.
Qed.

(** Also on an object the two part ways where the stage ends in its
    exception handler: the stage names the writer, the router sends the
    run back to the researcher as long as results are missing and budget
    is left. And without a plan, below the budget, the router answers
    write where the Continuation Policy of the stage raises. *)
Lemma router_continues_after_error :
  let state := sample_state 0 5 1 0 in
  let delta := call_research_agent offline_world state in
  d_current_agent delta = Some "writer"
  /\ _should_continue_research_decision (AsObject (merge state delta))
     = Ok "continue".
Proof. split; reflexivity. Qed.

Lemma policy_raises_without_plan :
  let state := initial_state [HumanMessage "quantum computing trends"] in
  _should_continue_research state []
  = Raise "'NoneType' object has no attribute 'subtopics'"
  /\ _should_continue_research_decision (AsObject state) = Ok "write".
Proof. split; reflexivity. Qed.

(** ** The nodes, as the controller sees them *)

Lemma planner_delta_fields (w : World) (state : ResearchMultiAgentState) :
  is_Some (d_research_plan (call_planner_agent w state))
  /\ d_research_iterations (call_planner_agent w state) = None
  /\ d_research_results (call_planner_agent w state) = None
  /\ d_current_agent (call_planner_agent w state) = Some "researcher".
Proof.
  unfold call_planner_agent, planner_attempt.
  destruct (last _) as [last_message|]; [|cbn; eauto].
  destruct (planner_model w (text last_message)) as [c|e]; cbn; eauto.
Qed.

Lemma writer_delta_fields (w : World) (state : ResearchMultiAgentState) :
  is_Some (d_final_report (call_writer_agent w state))
  /\ d_current_agent (call_writer_agent w state) = Some "completed".
Proof.
  unfold call_writer_agent, writer_attempt.
  destruct (filter _ _) as [|first_message rest]; [cbn; eauto|].
  destruct (research_plan state) as [plan|]; [|cbn; eauto].
  destruct (writer_model w state) as [report|e]; cbn; eauto.
Qed.

Lemma merge_max (state : ResearchMultiAgentState) (d : Delta) :
  max_research_iterations (merge state d) = max_research_iterations state.
Proof. reflexivity. Qed.

(** ** Runs of the graph *)

Section Runs.

Variable w : World.

Lemma run_from_END (g : StateGraph) (fuel : nat) (state : ResearchMultiAgentState) :
  run_from g w fuel END state = Some (state, []).
Proof. destruct fuel; reflexivity. Qed.

(** More fuel does not change a run that completes. *)
Lemma run_from_more_fuel (g : StateGraph) (fuel fuel' : nat) :
  (fuel <= fuel')%nat ->
  forall n state out,
    run_from g w fuel n state = Some out -> run_from g w fuel' n state = Some out.
Proof.
  revert fuel'. induction fuel as [|fuel IH]; intros fuel' Hle n state out Hrun.
  - destruct n; cbn in Hrun; try discriminate. rewrite run_from_END. assumption.
  - destruct fuel' as [|fuel']; [lia|].
    destruct n; try (rewrite run_from_END; cbn in Hrun; assumption);
      cbn in Hrun |- *;
      destruct (assoc _ (nodes g)) as [f|]; try discriminate; cbn in Hrun |- *;
      destruct (successor g _ _) as [n'|]; try discriminate; cbn in Hrun |- *;
      destruct (run_from g w fuel n' _) as [[final trace]|] eqn:Hrec;
      try discriminate;
      rewrite (IH fuel' ltac:(lia) _ _ _ Hrec); assumption.
Qed.

(** One writer invocation ends a run, in both graphs. *)
Lemma run_from_writer (with_loops : bool) (fuel : nat)
    (state : ResearchMultiAgentState) :
  run_from (workflow_graph with_loops) w (S fuel) Writer state
  = Some (merge state (call_writer_agent w state), [Writer]).
Proof. destruct with_loops, fuel; reflexivity. Qed.

End Runs.

Section Workflow.

Variable w : World.

(** One step of the controller at a node other than [END]. *)
Lemma run_from_step (g : StateGraph) (fuel : nat) (n n' : NodeName)
    (f : World -> ResearchMultiAgentState -> Delta)
    (state : ResearchMultiAgentState) :
  n <> END ->
  assoc n (nodes g) = Some f ->
  successor g n (merge state (f w state)) = Some n' ->
  run_from g w (S fuel) n state
  = ('(final, trace) ← run_from g w fuel n' (merge state (f w state));
     Some (final, n :: trace)).
Proof.
  intros Hn Hf Hnext.
  destruct n; try congruence; cbn [run_from]; rewrite Hf; cbn;
    rewrite Hnext; reflexivity.
Qed.

Lemma run_planner_first (with_loops : bool) (fuel : nat)
    (state : ResearchMultiAgentState) :
  run (workflow_graph with_loops) w (S fuel) state
  = ('(final, trace) ←
       run_from (workflow_graph with_loops) w fuel Researcher
         (merge state (call_planner_agent w state));
     Some (final, Planner :: trace)).
Proof.
  unfold run.
  replace (assoc START (edges (workflow_graph with_loops))) with (Some Planner)
    by (destruct with_loops; reflexivity).
  cbn [mbind option_bind].
  apply run_from_step; [discriminate | |]; destruct with_loops; reflexivity.
Qed.

(** In the chain the researcher is followed by the writer, whatever the
    stage has put into [current_agent]. *)
Lemma run_from_researcher_chain (fuel : nat) (state : ResearchMultiAgentState) :
  run_from create_research_multi_agent_graph w (S (S fuel)) Researcher state
  = Some (merge (merge state (call_research_agent w state))
            (call_writer_agent w (merge state (call_research_agent w state))),
          [Researcher; Writer]).
Proof.
  rewrite (run_from_step _ _ Researcher Writer call_research_agent);
    [|discriminate|reflexivity|reflexivity].
  rewrite (run_from_writer w false). reflexivity.
Qed.

Lemma planner_merge_counters (state : ResearchMultiAgentState) :
  let state' := merge state (call_planner_agent w state) in
  research_iterations state' = research_iterations state
  /\ max_research_iterations state' = max_research_iterations state.
Proof.
  destruct (planner_delta_fields w state) as (_ & Hit & _).
  cbn. rewrite Hit. split; reflexivity.
Qed.

(** C1 (amended): for every initial state, a full run of the graph of
    [create_research_multi_agent_graph] terminates with
    [current_agent = "completed"] and a non-null [final_report] after
    exactly three node invocations, of the planner, the researcher and the
    writer. That is at most [max(1, max_research_iterations) + 2]
    invocations, hence at most [max_research_iterations + 2] whenever the
    budget is at least one; the researcher node is executed exactly once,
    also when the budget is zero. *)
Theorem run_terminates (state : ResearchMultiAgentState) :
  exists final trace,
    run create_research_multi_agent_graph w (length trace) state
    = Some (final, trace)
    /\ current_agent final = "completed"
    /\ is_Some (final_report final)
    /\ trace = [Planner; Researcher; Writer]
    /\ invocations Researcher trace = 1
    /\ len trace <= Z.max 1 (max_research_iterations state) + 2.
Proof.
  set (planned := merge state (call_planner_agent w state)).
  set (researched := merge planned (call_research_agent w planned)).
  exists (merge researched (call_writer_agent w researched)),
         [Planner; Researcher; Writer].
  split.
  { cbn [length]. rewrite (run_planner_first false). fold planned.
    cbn [workflow_graph]. rewrite run_from_researcher_chain. reflexivity. }
  destruct (writer_delta_fields w researched) as [[rep Hrep] Hagent].
  replace (invocations Researcher [Planner; Researcher; Writer]) with 1
    by reflexivity.
  replace (len [Planner; Researcher; Writer]) with 3 by reflexivity.
  cbn. rewrite Hrep, Hagent.
  split; [reflexivity|]. split; [eauto|]. split; [reflexivity|].
  split; [reflexivity | lia].
Qed.

(** C10: in the graph of [create_research_multi_agent_graph] every run
    is the chain planner, researcher, writer: the researcher is invoked
    exactly once, whatever the Continuation Policy has answered; that
    graph has no conditional edge and its only edge out of the researcher
    leads to the writer, while the graph of
    [create_research_multi_agent_graph_with_loops] routes the
    researcher's "continue" back to the researcher. *)
Theorem chain_invokes_researcher_once (fuel : nat)
    (state : ResearchMultiAgentState) :
  (exists final,
      run create_research_multi_agent_graph w (3 + fuel) state
      = Some (final, [Planner; Researcher; Writer]))
  /\ invocations Researcher [Planner; Researcher; Writer] = 1
  /\ conditional_edges create_research_multi_agent_graph = []
  /\ filter (fun e => e.1 = Researcher) (edges create_research_multi_agent_graph)
     = [(Researcher, Writer)]
  /\ assoc Researcher (conditional_edges create_research_multi_agent_graph_with_loops)
     = Some (_should_continue_research_decision,
             [("continue", Researcher); ("write", Writer)]).
Proof.
  split; [|repeat split].
  eexists. change (3 + fuel)%nat with (S (S (S fuel))).
  rewrite (run_planner_first false). cbn [workflow_graph].
  rewrite run_from_researcher_chain. reflexivity.
Qed.

End Workflow.

(** C1, as stated, fails for a budget of zero: the researcher is entered
    once (and skips), so the run takes three node invocations, one more
    than [max_research_iterations + 2], and the researcher runs once, more
    often than [max_research_iterations] times. Two invocations do not
    complete the run. *)
Lemma zero_budget_counterexample :
  let g := create_research_multi_agent_graph in
  let bound := max_research_iterations zero_budget_state + 2 in
  run g offline_world (Z.to_nat bound) zero_budget_state = None
  /\ snd <$> run g offline_world 3 zero_budget_state
     = Some [Planner; Researcher; Writer]
  /\ ~ (len [Planner; Researcher; Writer] <= bound)
  /\ ~ (invocations Researcher [Planner; Researcher; Writer]
        <= max_research_iterations zero_budget_state).
Proof.
  repeat split; try (vm_compute; reflexivity); vm_compute; intros H; apply H; reflexivity.
Qed.

(** ** The Plan stage *)

Section PlanStage.

Variable w : World.
Variable state : ResearchMultiAgentState.

(** The stage is a total function, and it always hands over to the
    researcher. *)
Lemma planner_hands_over :
  d_current_agent (call_planner_agent w state) = Some "researcher".
Proof. apply planner_delta_fields. Qed.

(** An exception of the extraction is handled inside: the plan is the
    single-item plan of the last user message. *)
Lemma planner_extraction_failure (user_query : string) (n : nat) (rendering : string) :
  last_user_message state = Some user_query ->
  planner_model w user_query = Ok (CBlocks n rendering) ->
  d_research_plan (call_planner_agent w state)
  = Some (single_item_plan "Research aspect of: " user_query).
Proof.
  unfold last_user_message, call_planner_agent, planner_attempt.
  destruct (last _) as [m|]; [|discriminate].
  cbn. intros [= <-] ->. reflexivity.
Qed.

(** An exception of the generation is handled by the outer handler,
    which reads the last message of the state, of whatever role. *)
Lemma planner_generation_failure (user_query e : string) (last_msg : Message) :
  last_user_message state = Some user_query ->
  planner_model w user_query = Raise e ->
  last (messages state) = Some last_msg ->
  d_research_plan (call_planner_agent w state)
  = Some (single_item_plan "General research on: " (text last_msg)).
Proof.
  unfold last_user_message, call_planner_agent, planner_attempt.
  destruct (last (filter _ _)) as [m|]; [|discriminate].
  cbn. intros [= <-] -> ->. reflexivity.
Qed.

End PlanStage.

(** C5 on a failing input: the state holds the user's query followed by an
    assistant message, and the generation raises. The stage contains the
    exception and hands over to the researcher, but the fallback plan is
    built from the assistant's text "Noted.", not from the last user
    message "quantum computing trends". *)
Theorem planner_fallback_reads_last_message :
  last_user_message interrupted_state = Some "quantum computing trends"
  /\ planner_model offline_world "quantum computing trends" = Raise "connection refused"
  /\ d_current_agent (call_planner_agent offline_world interrupted_state)
     = Some "researcher"
  /\ d_research_plan (call_planner_agent offline_world interrupted_state)
     = Some (single_item_plan "General research on: " "Noted.")
  /\ single_item_plan "General research on: " "Noted."
     <> single_item_plan "General research on: " "quantum computing trends".
Proof. repeat split; discriminate. Qed.

(** ** The extractors of the Plan stage *)

Lemma subtopics_loop_no_section (lines : list string) :
  Forall (fun line => opens_section "subtopic" line = false) lines ->
  subtopics_loop lines false [] = [].
Proof.
  induction 1 as [|line lines Hline _ IH]; [reflexivity|].
  cbn [subtopics_loop]. unfold opens_section in Hline. rewrite Hline.
  cbn. exact IH.
Qed.

Lemma questions_loop_no_section (lines : list string) :
  Forall (fun line => opens_section "question" line = false) lines ->
  questions_loop lines false [] = [].
Proof.
  induction 1 as [|line lines Hline _ IH]; [reflexivity|].
  cbn [questions_loop]. unfold opens_section in Hline. rewrite Hline.
  cbn. exact IH.
Qed.

Lemma subtopics_fallback (c : string) :
  Forall (fun line => opens_section "subtopic" line = false) (split_lines c) ->
  _extract_subtopics c = ["General research topic"].
Proof.
  intros Hno. unfold _extract_subtopics.
  rewrite (subtopics_loop_no_section _ Hno). reflexivity.
Qed.

Lemma questions_fallback (c : string) :
  Forall (fun line => opens_section "question" line = false) (split_lines c) ->
  _extract_research_questions c = ["What are the key aspects of this topic?"].
Proof.
  intros Hno. unfold _extract_research_questions.
  rewrite (questions_loop_no_section _ Hno). reflexivity.
Qed.

(** C6, as stated, fails: on a text without any section the extractor
    itself returns the single fallback item, not the empty list. *)
Lemma extractor_fallback_counterexample :
  let c := "No plan could be produced." in
  Forall (fun line => opens_section "subtopic" line = false) (split_lines c)
  /\ Forall (fun line => opens_section "question" line = false) (split_lines c)
  /\ _extract_subtopics c = ["General research topic"]
  /\ _extract_subtopics c <> []
  /\ _extract_research_questions c = ["What are the key aspects of this topic?"]
  /\ _extract_research_questions c <> [].
Proof.
  cbn zeta. split; [repeat constructor|]. split; [repeat constructor|].
  repeat split; discriminate.
Qed.

(** C6 (amended): for every input text in which the section keyword never
    appears on a line together with a colon, the section-item extractor
    finds no item and applies the single-item fallback itself:
    [_extract_subtopics] returns [["General research topic"]] and
    [_extract_research_questions] returns
    [["What are the key aspects of this topic?"]]. *)
Theorem extractor_applies_fallback (sec : PlanSection) (c : string) :
  Forall (fun line => opens_section (section_keyword sec) line = false)
         (split_lines c) ->
  section_extractor sec c = [section_fallback sec].
Proof.
  intros Hno. destruct sec; cbn in *.
  - apply subtopics_fallback, Hno.
  - apply questions_fallback, Hno.
Qed.

Lemma extractor_applies_fallback_witness :
  _extract_subtopics "No plan could be produced." = ["General research topic"].
Proof.
  apply (extractor_applies_fallback SubtopicsSection "No plan could be produced.").
  repeat constructor.
Defined.

(** The caller takes the lists as the extractors return them. *)
Lemma parse_plan_takes_fallbacks (c user_query : string) :
  Forall (fun line => opens_section "subtopic" line = false) (split_lines c) ->
  Forall (fun line => opens_section "question" line = false) (split_lines c) ->
  parse_plan (CText c) user_query
  = Ok {| main_topic := _extract_main_topic c user_query;
          subtopics := ["General research topic"];
          research_questions := ["What are the key aspects of this topic?"] |}.
Proof.
  intros Hs Hq. unfold parse_plan.
  rewrite (subtopics_fallback c Hs), (questions_fallback c Hq). reflexivity.
Qed.

(** ** The Write stage *)

Lemma append_cons (x : ascii) (a b : string) : String x a +:+ b = String x (a +:+ b).
Proof. reflexivity. Qed.

Lemma append_assoc (a b c : string) : (a +:+ b) +:+ c = a +:+ b +:+ c.
Proof.
  induction a as [|x a IH]; [reflexivity|].
  rewrite !append_cons, IH. reflexivity.
Qed.

Lemma append_empty_r (a : string) : a +:+ "" = a.
Proof.
  induction a as [|x a IH]; [reflexivity|].
  rewrite append_cons, IH. reflexivity.
Qed.

Lemma py_startswith_append (p s : string) : py_startswith p (p +:+ s) = true.
Proof.
  induction p as [|x p IH]; [reflexivity|].
  rewrite append_cons. cbn. unfold ascii_eqb.
  rewrite Stdlib.Strings.Ascii.eqb_refl. exact IH.
Qed.

Lemma py_in_here (needle rest : string) : py_in needle (needle +:+ rest) = true.
Proof.
  destruct (needle +:+ rest) eqn:E; cbn; rewrite <- E, py_startswith_append;
    reflexivity.
Qed.

Lemma py_in_append_r (needle a b : string) :
  py_in needle b = true -> py_in needle (a +:+ b) = true.
Proof.
  intros Hb. induction a as [|x a IH]; [exact Hb|].
  rewrite append_cons. cbn. rewrite IH. apply orb_true_r.
Qed.

(** The loop with its set computes the source list. *)
Lemma sources_loop_entries (rest : list ResearchResult) :
  forall (earlier : list ResearchResult) (unique_sources : gset string)
         (sources_section : string),
    (forall x, x ≠ "Unknown source" ->
               x ∈ unique_sources <-> x ∈ (source <$> earlier)) ->
    sources_loop (len earlier + 1) rest unique_sources sources_section
    = sources_section +:+ source_entries earlier rest.
Proof.
  induction rest as [|r rest IH]; intros earlier unique_sources sources_section Hinv.
  - cbn. rewrite append_empty_r. reflexivity.
  - cbn [sources_loop source_entries]. unfold listed.
    assert (Hlen : len earlier + 1 + 1 = len (earlier ++ [r]) + 1).
    { unfold len. rewrite length_app. cbn. lia. }
    rewrite Hlen.
    destruct (decide (source r = "Unknown source")) as [Hu|Hu].
    + rewrite (bool_decide_eq_false_2 (source r ≠ "Unknown source")) by tauto.
      rewrite andb_false_r. cbn [andb]. rewrite IH; [reflexivity|].
      intros x Hx. rewrite Hinv by assumption. rewrite fmap_app. cbn.
      set_solver.
    + rewrite (bool_decide_eq_true_2 (source r ≠ "Unknown source")) by assumption.
      rewrite andb_true_r. cbn [andb].
      destruct (decide (source r ∈ unique_sources)) as [Hin|Hin].
      * rewrite (bool_decide_eq_false_2 (source r ∉ unique_sources)) by tauto.
        rewrite (bool_decide_eq_false_2 (source r ∉ source <$> earlier))
          by (rewrite <- Hinv by assumption; tauto).
        rewrite IH; [reflexivity|].
        intros x Hx. rewrite Hinv by assumption. rewrite fmap_app. cbn.
        apply Hinv in Hin; [|assumption]. set_solver.
      * rewrite (bool_decide_eq_true_2 (source r ∉ unique_sources)) by assumption.
        rewrite (bool_decide_eq_true_2 (source r ∉ source <$> earlier))
          by (rewrite <- Hinv by assumption; assumption).
        rewrite IH.
        { unfold source_entry. rewrite !append_assoc. reflexivity. }
        intros x Hx. rewrite fmap_app. cbn.
        specialize (Hinv x Hx). set_solver.
Qed.

(** With unknown sources only, the list has no line. *)
Lemma source_entries_unknown (rest : list ResearchResult) :
  forall earlier,
    Forall (fun r => source r = "Unknown source") rest ->
    source_entries earlier rest = "".
Proof.
  induction rest as [|r rest IH]; intros earlier Hall; [reflexivity|].
  inversion Hall as [|? ? Hr Hrest]; subst.
  cbn [source_entries]. unfold listed.
  rewrite (bool_decide_eq_false_2 (source r ≠ "Unknown source")) by tauto.
  cbn. apply IH, Hrest.
Qed.

(** C7, as stated, fails: with one Result whose source is the literal
    "Unknown source", and a report without a sources section, the Sources
    heading is appended all the same, with no line under it. And the
    header of a run without Results reads
    "**Sources Consulted:** 0 research sources", which does not contain the
    text "Sources Consulted: 0". *)
Lemma unknown_sources_counterexample :
  let state := with_results (sample_state 1 5 1 0) [sample_result "Unknown source"] in
  let empty := sample_state 1 5 1 0 in
  py_in "sources:" (py_lower "Findings.") = false
  /\ Forall (fun r => source r = "Unknown source") (research_results state)
  /\ _enhance_report_formatting offline_world "Findings." state
     = report_metadata offline_world state +:+ "Findings." +:+ sources_heading
  /\ py_in "Sources Consulted: 0"
       (_enhance_report_formatting offline_world "Findings." empty) = false.
Proof. cbn zeta. split; [reflexivity|]. split; [repeat constructor|].
  split; vm_compute; reflexivity. Qed.

(** C7 (amended): for every generated report text and every list of
    accumulated Results, the Write stage appends the Sources section if and
    only if there is at least one Result and the report does not already
    contain "sources:" (compared in lower case). The section is the
    heading followed by one line for each Result whose source is not the
    literal "Unknown source" and has not occurred before, numbered by the
    position of the Result; when every source is "Unknown source" the
    heading stands alone. With zero Results nothing is appended and the
    metadata header contains "**Sources Consulted:** 0 research sources". *)
Theorem sources_section_appended (w : World) (report : string)
    (state : ResearchMultiAgentState) :
  _enhance_report_formatting w report state
  = report_metadata w state +:+ report +:+
    (if negb (bool_decide (research_results state = []))
        && negb (py_in "sources:" (py_lower report))
     then sources_heading +:+ source_entries [] (research_results state)
     else "")
  /\ (Forall (fun r => source r = "Unknown source") (research_results state) ->
      source_entries [] (research_results state) = "")
  /\ (research_results state = [] ->
      _enhance_report_formatting w report state = report_metadata w state +:+ report
      /\ py_in "**Sources Consulted:** 0 research sources" (report_metadata w state)
         = true).
Proof.
  split; [|split].
  - unfold _enhance_report_formatting.
    destruct (negb _ && negb _).
    + rewrite (sources_loop_entries _ [] ∅ sources_heading); [reflexivity|].
      intros x _. cbn. set_solver.
    + rewrite append_empty_r. reflexivity.
  - apply source_entries_unknown.
  - intros Hempty. unfold _enhance_report_formatting, report_metadata.
    rewrite Hempty. split; [reflexivity|].
    do 9 (apply py_in_append_r).
    match goal with
    | |- py_in ?needle (_ +:+ _ +:+ _ +:+ ?rest) = true =>
        change (py_in needle (needle +:+ rest) = true)
    end.
    apply py_in_here.
Qed.

Lemma sources_section_appended_witness :
  _enhance_report_formatting offline_world "Findings." (sample_state 1 5 1 0)
  = report_metadata offline_world (sample_state 1 5 1 0) +:+ "Findings."
  /\ py_in "**Sources Consulted:** 0 research sources"
       (report_metadata offline_world (sample_state 1 5 1 0)) = true.
Proof.
  apply (proj2 (proj2 (sources_section_appended offline_world "Findings."
                         (sample_state 1 5 1 0)))).
  reflexivity.
Defined.

(** ** The extraction of the Research stage *)

Section Extraction.

Variable w : World.
Variable topic : string.

Lemma extract_loop_messages (messages todo : list TMessage) :
  forall results,
    Forall (fun m => breaks_extraction m = false) todo ->
    extract_loop w messages topic todo results
    = (results ++ flat_map (message_results w messages topic) todo, None).
Proof.
  induction todo as [|m todo IH]; intros results Hall.
  - cbn. rewrite app_nil_r. reflexivity.
  - inversion Hall as [|? ? Hm Htodo]; subst.
    cbn [extract_loop flat_map]. unfold message_results at 1.
    unfold breaks_extraction in Hm.
    destruct (t_content m) as [s|n rendering]; cbn [str_of_content] in *.
    + destruct (py_in "tavily_search" s); cbn [andb].
      * cbn [_extract_from_content]. rewrite IH by assumption.
        destruct (100 <? _); rewrite <- !app_assoc; reflexivity.
      * rewrite IH by assumption. rewrite app_nil_r, <- app_assoc. reflexivity.
    + destruct (py_in "tavily_search" rendering); cbn [andb] in *.
      * cbn [_extract_from_content]. rewrite Hm. rewrite IH by assumption.
        rewrite !app_nil_r, <- app_assoc. reflexivity.
      * rewrite IH by assumption. rewrite app_nil_r, <- app_assoc. reflexivity.
Qed.

(** C8 (amended): for every agent transcript on which the extraction
    does not raise, the Results are, message by message, the Results of
    the located tool calls of the message followed by a Result tagged
    source="Research agent analysis" with score 0.7 for the message's
    text whenever that text is longer than 100 characters and mentions
    the search tool; the synthesized Result is produced whether or not
    tool calls are found, in addition to the Results of the tool calls. *)
Theorem analysis_result_per_message (response : list TMessage) :
  Forall (fun m => breaks_extraction m = false) response ->
  _extract_research_results_from_response w response topic
  = flat_map (message_results w response topic) response.
Proof.
  intros Hall. unfold _extract_research_results_from_response.
  rewrite extract_loop_messages by assumption. reflexivity.
Qed.

End Extraction.

(** C8, as stated, fails: on a transcript in which the tool call is found
    and its result located, the summary message of the agent yields the
    synthesized Result as well, after the Result of the tool call. *)
Lemma analysis_besides_tool_call_counterexample :
  let response := transcript_of "Qubit counts keep growing." in
  _find_tool_result response (tc_id search_call) = "Qubit counts keep growing."
  /\ _extract_research_results_from_response offline_world response
       "quantum computing trends"
     = [ {| query := "quantum hardware";
            content := "Qubit counts keep growing.";
            source := "Web search result";
            relevance_score := 0.8 |};
         {| query := "Research on quantum computing trends";
            content := summary_text;
            source := "Research agent analysis";
            relevance_score := 0.7 |} ].
Proof. split; reflexivity. Qed.

Lemma analysis_result_per_message_witness :
  _extract_research_results_from_response offline_world
    (transcript_of "Qubit counts keep growing.") "quantum computing trends"
  = flat_map (message_results offline_world
                (transcript_of "Qubit counts keep growing.")
                "quantum computing trends")
      (transcript_of "Qubit counts keep growing.").
Proof.
  apply (analysis_result_per_message offline_world "quantum computing trends"
           (transcript_of "Qubit counts keep growing.")).
  repeat constructor.
Defined.

(** ** The Results of the Research stage *)

Section ResultBounds.

Variable w : World.

Lemma str_take_length (n : nat) (s : string) :
  (String.length (str_take n s) <= n)%nat.
Proof.
  unfold str_take. revert s. induction n as [|n IH]; intros s.
  - destruct s; cbn; lia.
  - destruct s as [|c s]; cbn; [lia|]. specialize (IH s). lia.
Qed.

Lemma result_of_record_bounds (q raw : string) (fields : list (string * json))
    (r : ResearchResult) :
  result_of_record w q raw (JObj fields) = Ok r ->
  query r = q
  /\ Z.of_nat (String.length (content r)) <= 2000
  /\ float_of w (dict_get "score" fields (JFloat 0.8)) = Some (relevance_score r).
Proof.
  unfold result_of_record, ResearchResult_validate.
  destruct (json_slice 2000 _) as [c|e] eqn:Hslice; [|discriminate].
  cbn. destruct c as [| | | |s| |]; try discriminate.
  cbn. destruct (str_field _) as [src|e]; [|discriminate].
  cbn. destruct (float_of w _) as [score|] eqn:Hscore; [|discriminate].
  intros [= <-]. cbn. split; [reflexivity|]. split; [|reflexivity].
  unfold json_slice in Hslice.
  destruct (dict_get _ _ _) as [| | | |s'| |]; try discriminate.
  injection Hslice as <-. pose proof (str_take_length 2000 s'). lia.
Qed.







End ResultBounds.



(** * Further properties of the code *)

(** ** The Research stage, continued *)

Lemma research_merge_results (w : World) (state : ResearchMultiAgentState) :
  research_results state
  `prefix_of` research_results (merge state (call_research_agent w state)).
Proof.
  unfold call_research_agent, research_attempt.
  destruct (research_plan state) as [plan|]; [|exists []; cbn; apply eq_sym, app_nil_r].
  destruct (_ <=? _); [exists []; cbn; apply eq_sym, app_nil_r|].
  destruct (_create_research_instructions state) as [instr|e];
    [|exists []; cbn; apply eq_sym, app_nil_r].
  cbn. destruct (research_agent w instr) as [resp|e];
    [|exists []; cbn; apply eq_sym, app_nil_r].
  cbn. destruct (_should_continue_research _ _) as [b|e];
    [|exists []; cbn; apply eq_sym, app_nil_r].
  eexists. cbn. reflexivity.
Qed.

(** X1: results are only appended. Whatever path one invocation of the
    Research stage takes, the results of the input state are a prefix of
    the results of the merged state, and on the normal path the rest is
    what the extraction returns for the agent's response. *)
Theorem research_results_append_only (w : World) (state : ResearchMultiAgentState) :
  research_results state
  `prefix_of` research_results (merge state (call_research_agent w state))
  /\ forall plan instr response b,
       research_plan state = Some plan ->
       research_iterations state < max_research_iterations state ->
       _create_research_instructions state = Ok instr ->
       research_agent w instr = Ok response ->
       _should_continue_research
         (with_results state
            (research_results state
             ++ _extract_research_results_from_response w response (main_topic plan)))
         (research_results state
          ++ _extract_research_results_from_response w response (main_topic plan))
       = Ok b ->
       research_results (merge state (call_research_agent w state))
       = research_results state
         ++ _extract_research_results_from_response w response (main_topic plan).
Proof.
  split; [apply research_merge_results|].
  intros plan instr response b Hplan Hlt Hinstr Hagent Hpolicy.
  rewrite (research_normal_path w state plan instr response b); auto.
Qed.

Lemma research_results_append_only_witness :
  research_results
    (merge (sample_state 0 5 2 0) (call_research_agent tavily_world (sample_state 0 5 2 0)))
  = research_results (sample_state 0 5 2 0)
    ++ _extract_research_results_from_response tavily_world
         (transcript_of score_payload) (main_topic (sample_plan 2)).
Proof.
  eapply (proj2 (research_results_append_only tavily_world (sample_state 0 5 2 0))
            (sample_plan 2) _ (transcript_of score_payload) true);
    [reflexivity | cbn; lia | reflexivity | reflexivity | vm_compute; reflexivity].
Defined.

(** X2: the stage asks for another research iteration only when a plan is
    present and the iteration it has just done leaves budget: if its delta
    names the researcher, then [research_iterations + 1] is below
    [max_research_iterations]. *)
Theorem researcher_named_within_budget (w : World) (state : ResearchMultiAgentState) :
  d_current_agent (call_research_agent w state) = Some "researcher" ->
  is_Some (research_plan state)
  /\ research_iterations state + 1 < max_research_iterations state.
Proof.
  unfold call_research_agent, research_attempt.
  destruct (research_plan state) as [plan|] eqn:Hplan; [|discriminate].
  destruct (_ <=? _); [discriminate|].
  destruct (_create_research_instructions state) as [instr|e]; [|discriminate].
  cbn. destruct (research_agent w instr) as [resp|e]; [|discriminate].
  cbn. destruct (_should_continue_research _ _) as [[|]|e] eqn:Hpolicy;
    try discriminate.
  intros _. split; [eauto|].
  unfold _should_continue_research in Hpolicy. cbn in Hpolicy.
  destruct (Z.leb_spec (max_research_iterations state)
              (research_iterations state + 1)); [discriminate | assumption].
Qed.

Lemma researcher_named_within_budget_witness :
  is_Some (research_plan (sample_state 0 5 2 0))
  /\ research_iterations (sample_state 0 5 2 0) + 1
     < max_research_iterations (sample_state 0 5 2 0).
Proof.
  apply (researcher_named_within_budget tavily_world (sample_state 0 5 2 0)).
  vm_compute. reflexivity.
Defined.

(** X3: without a plan, or at the budget, the stage does not turn to the
    agent: its delta is the same in every world. *)
Theorem research_leaves_agent_alone (w w' : World) (state : ResearchMultiAgentState) :
  research_plan state = None
  \/ max_research_iterations state <= research_iterations state ->
  call_research_agent w state = call_research_agent w' state.
Proof.
  intros Hcase. unfold call_research_agent, research_attempt.
  destruct (research_plan state) as [plan|]; [|reflexivity].
  destruct Hcase as [Hnone|Hmax]; [discriminate|].
  destruct (Z.leb_spec (max_research_iterations state) (research_iterations state));
    [reflexivity | lia].
Qed.

Lemma research_leaves_agent_alone_witness :
  call_research_agent tavily_world (sample_state 5 5 1 2)
  = call_research_agent offline_world (sample_state 5 5 1 2).
Proof.
  apply (research_leaves_agent_alone tavily_world offline_world (sample_state 5 5 1 2)).
  right. cbn. lia.
Defined.


(** ** The instructions of an iteration *)

Lemma take_when_longer {A} (n : nat) (l : list A) :
  (if Z.of_nat n <? len l then take n l else l) = take n l.
Proof.
  unfold len. destruct (Z.ltb_spec (Z.of_nat n) (Z.of_nat (length l)));
    [reflexivity|]. rewrite take_ge by lia. reflexivity.
Qed.

Lemma py_slice_infix {A} (l : list A) (start stop : Z) :
  exists pre post, l = pre ++ py_slice l start stop ++ post.
Proof.
  unfold py_slice.
  set (a := Z.to_nat (clip_index (len l) start)).
  set (n := Z.to_nat (clip_index (len l) stop - clip_index (len l) start)).
  exists (take a l), (drop n (drop a l)).
  rewrite (take_drop n (drop a l)), (take_drop a l). reflexivity.
Qed.

Lemma py_slice_window {A} (l : list A) (start size : Z) :
  0 <= start -> 0 <= size -> len (py_slice l start (start + size)) <= size.
Proof.
  intros Hstart Hsize. unfold py_slice, len, clip_index.
  rewrite length_take.
  destruct (Z.ltb_spec start 0); [lia|].
  destruct (Z.ltb_spec (start + size) 0); lia.
Qed.

(** X5: when the stage builds the instructions (a plan is present and
    [0 <= research_iterations < max_research_iterations]) the construction
    does not raise; the iteration is numbered [research_iterations + 1];
    the first iteration focuses on the first three subtopics and the first
    five questions; and in every iteration the focus areas and the focus
    questions are contiguous parts of the plan's lists, of at most
    [max(3, subtopics // max)] and [max(5, questions // max)] items. *)
Theorem instructions_focus_slice (state : ResearchMultiAgentState)
    (plan : ResearchPlan) :
  research_plan state = Some plan ->
  0 <= research_iterations state < max_research_iterations state ->
  exists instr,
    _create_research_instructions state = Ok instr
    /\ i_iteration instr = research_iterations state + 1
    /\ (research_iterations state = 0 ->
        i_focus_areas instr = take 3 (subtopics plan)
        /\ i_focus_questions instr = take 5 (research_questions plan))
    /\ (exists pre post, subtopics plan = pre ++ i_focus_areas instr ++ post)
    /\ (exists pre post,
           research_questions plan = pre ++ i_focus_questions instr ++ post)
    /\ len (i_focus_areas instr)
       <= Z.max 3 (len (subtopics plan) / max_research_iterations state)
    /\ len (i_focus_questions instr)
       <= Z.max 5 (len (research_questions plan) / max_research_iterations state).
Proof.
  intros Hplan Hit. unfold _create_research_instructions, plan_of, floordiv.
  rewrite Hplan. cbn [mbind result_bind].
  destruct (Z.eqb_spec (research_iterations state + 1) 1) as [H1|H1].
  - change 3 with (Z.of_nat 3). change 5 with (Z.of_nat 5).
    rewrite !take_when_longer. cbn [mbind result_bind].
    eexists. split; [reflexivity|]. cbn.
    split; [reflexivity|]. split; [intros _; split; reflexivity|].
    split; [exists [], (drop 3 (subtopics plan)); cbn; rewrite take_drop; reflexivity|].
    split; [exists [], (drop 5 (research_questions plan)); cbn;
            rewrite take_drop; reflexivity|].
    unfold len. rewrite !length_take. lia.
  - destruct (Z.eqb_spec (max_research_iterations state) 0); [lia|].
    cbn [mbind result_bind].
    eexists. split; [reflexivity|]. cbn.
    split; [reflexivity|]. split; [intros H0; lia|].
    split; [apply py_slice_infix|]. split; [apply py_slice_infix|].
    replace (research_iterations state + 1 - 1) with (research_iterations state) by lia.
    split.
    + etransitivity; [apply py_slice_window; [|lia]|lia].
      apply Z.mul_nonneg_nonneg; lia.
    + etransitivity; [apply py_slice_window; [|lia]|lia].
      apply Z.mul_nonneg_nonneg; lia.
Qed.

Lemma instructions_focus_slice_witness :
  exists instr,
    _create_research_instructions (sample_state 1 2 7 0) = Ok instr
    /\ i_iteration instr = research_iterations (sample_state 1 2 7 0) + 1
    /\ (research_iterations (sample_state 1 2 7 0) = 0 ->
        i_focus_areas instr = take 3 (subtopics (sample_plan 7))
        /\ i_focus_questions instr = take 5 (research_questions (sample_plan 7)))
    /\ (exists pre post,
           subtopics (sample_plan 7) = pre ++ i_focus_areas instr ++ post)
    /\ (exists pre post,
           research_questions (sample_plan 7)
           = pre ++ i_focus_questions instr ++ post)
    /\ len (i_focus_areas instr)
       <= Z.max 3 (len (subtopics (sample_plan 7))
                   / max_research_iterations (sample_state 1 2 7 0))
    /\ len (i_focus_questions instr)
       <= Z.max 5 (len (research_questions (sample_plan 7))
                   / max_research_iterations (sample_state 1 2 7 0)).
Proof.
  apply (instructions_focus_slice (sample_state 1 2 7 0) (sample_plan 7));
    [reflexivity | cbn; lia].
Defined.

(** ** Tool calls and their results *)

(** X6: [_find_tool_result] returns the text of the first message that
    carries the call identifier, and the empty text when no message carries
    it; for a call without an identifier it returns the empty text. *)
Theorem find_tool_result_first (messages : list TMessage)
    (tool_call_id : option string) :
  match tool_call_id with
  | None => _find_tool_result messages tool_call_id = ""
  | Some i =>
      (Forall (fun m => t_tool_call_id m <> Some i) messages
       /\ _find_tool_result messages tool_call_id = "")
      \/ exists pre m post,
           messages = pre ++ m :: post
           /\ Forall (fun m' => t_tool_call_id m' <> Some i) pre
           /\ t_tool_call_id m = Some i
           /\ _find_tool_result messages tool_call_id
              = str_of_content (t_content m)
  end.
Proof.
  destruct tool_call_id as [i|].
  - induction messages as [|m messages IH].
    + left. split; [constructor | reflexivity].
    + cbn [_find_tool_result].
      destruct (t_tool_call_id m) as [j|] eqn:Hm.
      * destruct (decide (Some j = Some i)) as [Heq|Hne].
        { right. exists [], m, messages.
          split; [reflexivity|]. split; [constructor|].
          split; [congruence | reflexivity]. }
        destruct IH as [[Hall Hres]|(pre & m' & post & -> & Hpre & Hm' & Hres)].
        { left. split; [constructor; [congruence | exact Hall] | exact Hres]. }
        right. exists (m :: pre), m', post.
        split; [reflexivity|]. split; [constructor; [congruence | exact Hpre]|].
        split; assumption.
      * destruct IH as [[Hall Hres]|(pre & m' & post & -> & Hpre & Hm' & Hres)].
        { left. split; [constructor; [congruence | exact Hall] | exact Hres]. }
        right. exists (m :: pre), m', post.
        split; [reflexivity|]. split; [constructor; [congruence | exact Hpre]|].
        split; assumption.
  - induction messages as [|m messages IH]; [reflexivity|].
    cbn [_find_tool_result]. destruct (t_tool_call_id m) as [j|]; [|exact IH].
    destruct (decide _); [discriminate | exact IH].
Qed.

Lemma create_result_from_payload (w : World) (q raw : string)
    (fields : list (string * json)) :
  payload_record w raw = Some fields ->
  _create_research_result w q raw
  = match result_of_record w q raw (JObj fields) with
    | Ok r => r
    | Raise _ =>
        {| query := q; content := "Research result for: " +:+ q;
           source := "Research agent"; relevance_score := 0.5 |}
    end.
Proof.
  unfold payload_record, _create_research_result.
  destruct (json_loads w raw) as [[| | | | |items|fields']|]; try discriminate.
  - destruct items as [|[| | | | | |fields'] items]; try discriminate.
    intros [= ->]. destruct (result_of_record _ _ _ _); reflexivity.
  - intros [= ->]. destruct (result_of_record _ _ _ _); reflexivity.
Qed.

Lemma create_result_query (w : World) (q raw : string) :
  query (_create_research_result w q raw) = q.
Proof.
  destruct (payload_record w raw) as [fields|] eqn:Hpayload.
  - rewrite (create_result_from_payload _ _ _ _ Hpayload).
    destruct (result_of_record w q raw (JObj fields)) as [r|e] eqn:Hr; [|reflexivity].
    apply (result_of_record_bounds w _ _ _ _ Hr).
  - unfold payload_record in Hpayload. unfold _create_research_result.
    destruct (json_loads w raw) as [[| | | | |items|fields']|]; try reflexivity;
      try discriminate.
    destruct items as [|[| | | | | |fields'] items]; try reflexivity; discriminate.
Qed.

(** X7: every Result of the tool calls of a message comes from one of
    these calls: a call of [tavily_search] with a non-empty query, which is
    the query of the Result, and with a non-empty located result text. Calls
    of another tool, calls without a query and calls whose result is not
    located contribute nothing, so there are at most as many Results as
    calls. *)
Theorem tool_call_results_origin (w : World) (messages : list TMessage)
    (tool_calls : list ToolCall) :
  Forall (fun r =>
            exists tool_call,
              tool_call ∈ tool_calls
              /\ tc_name tool_call = "tavily_search"
              /\ tc_query tool_call = Some (query r)
              /\ query r <> ""
              /\ _find_tool_result messages (tc_id tool_call) <> "")
         (tool_call_results w messages tool_calls)
  /\ (length (tool_call_results w messages tool_calls) <= length tool_calls)%nat.
Proof.
  induction tool_calls as [|tool_call rest [IHorigin IHlen]];
    [split; [constructor | reflexivity]|].
  cbn [tool_call_results].
  assert (Hrest : Forall (fun r =>
            exists tc, tc ∈ tool_call :: rest
              /\ tc_name tc = "tavily_search"
              /\ tc_query tc = Some (query r)
              /\ query r <> ""
              /\ _find_tool_result messages (tc_id tc) <> "")
            (tool_call_results w messages rest)).
  { eapply Forall_impl; [exact IHorigin|].
    intros r (tc & Hin & Hrest). exists tc. split; [right; exact Hin | exact Hrest]. }
  destruct (decide (tc_name tool_call = "tavily_search")) as [Hname|];
    [|split; [exact Hrest | cbn; lia]].
  cbn zeta.
  destruct (decide (default "" (tc_query tool_call) = "")) as [|Hquery];
    [split; [exact Hrest | cbn; lia]|].
  destruct (decide (_find_tool_result messages (tc_id tool_call) = "")) as [|Hfound];
    [split; [exact Hrest | cbn; lia]|].
  split; [|cbn; lia].
  constructor; [|exact Hrest].
  exists tool_call. rewrite create_result_query.
  split; [left|]. split; [exact Hname|].
  destruct (tc_query tool_call) as [q|]; [|contradiction].
  cbn in *. auto.
Qed.

(** X8: a payload that decodes to an object, or to a list whose first
    item is an object, gives the Result of that object's fields: the
    content (cut to 2000 characters) and the url when they are present as
    texts, and for an absent key the raw payload (cut to 2000 characters)
    and "Unknown source"; the score is the value under the key score, or
    0.8 when the key is absent, as pydantic stores it in a float field: a
    float as it is, a value of another type as it is coerced. Where
    pydantic rejects the value, the Result is the one of the exception
    handler. *)
Theorem decoded_payload_result (w : World) (q raw : string)
    (fields : list (string * json))
    (c_opt u_opt : option string) (score_opt : option json) :
  payload_record w raw = Some fields ->
  assoc "content" fields = JStr <$> c_opt ->
  assoc "url" fields = JStr <$> u_opt ->
  assoc "score" fields = score_opt ->
  _create_research_result w q raw
  = match float_of w (default (JFloat 0.8) score_opt) with
    | Some x =>
        {| query := q;
           content := str_take 2000 (default raw c_opt);
           source := default "Unknown source" u_opt;
           relevance_score := x |}
    | None =>
        {| query := q;
           content := "Research result for: " +:+ q;
           source := "Research agent";
           relevance_score := 0.5 |}
    end.
Proof.
  intros Hpayload Hc Hu Hs.
  rewrite (create_result_from_payload _ _ _ _ Hpayload).
  unfold result_of_record, ResearchResult_validate, dict_get.
  rewrite Hc, Hu, Hs.
  destruct c_opt, u_opt, (float_of w (default (JFloat 0.8) score_opt));
    reflexivity.
Qed.

Lemma decoded_payload_result_witness :
  _create_research_result tavily_world "quantum hardware" score_payload
  = {| query := "quantum hardware";
       content := str_take 2000 score_payload;
       source := "Unknown source";
       relevance_score := 5 |}.
Proof.
  apply (decoded_payload_result tavily_world "quantum hardware" score_payload
           [("score", JFloat 5)] None None (Some (JFloat 5))); reflexivity.
Defined.

(** ** An exception in the middle of the extraction *)

Lemma extract_loop_app (w : World) (messages : list TMessage) (topic : string)
    (todo1 todo2 : list TMessage) :
  forall results,
    extract_loop w messages topic (todo1 ++ todo2) results
    = match extract_loop w messages topic todo1 results with
      | (results', None) => extract_loop w messages topic todo2 results'
      | (results', Some e) => (results', Some e)
      end.
Proof.
  induction todo1 as [|m todo1 IH]; intros results; [reflexivity|].
  cbn [app extract_loop].
  destruct (py_in _ _); [|apply IH].
  destruct (_extract_from_content _ _); [apply IH | reflexivity].
Qed.

(** X9: when the extraction raises at a message (a list of more than 100
    content blocks whose rendering mentions the search tool), the Results
    gathered from the earlier messages and from the tool calls of that
    message are kept, the later messages are not read, and exactly one
    Result is appended, built from at most 1000 characters of the last
    message of the transcript, with the source
    "Generated from research agent" and the score 0.8. *)
Theorem extraction_failure_keeps_results (w : World) (topic : string)
    (pre post : list TMessage) (m : TMessage) :
  let response := pre ++ m :: post in
  Forall (fun m' => breaks_extraction m' = false) pre ->
  breaks_extraction m = true ->
  _extract_research_results_from_response w response topic
  = flat_map (message_results w response topic) pre
    ++ tool_call_results w response (default [] (t_tool_calls m))
    ++ [ {| query := "Research on " +:+ topic;
            content :=
              str_take 1000 (str_of_content (t_content (default m (last post))));
            source := "Generated from research agent";
            relevance_score := 0.8 |} ].
Proof.
  intros response Hpre Hm. unfold _extract_research_results_from_response.
  unfold response at 2. rewrite extract_loop_app.
  rewrite extract_loop_messages by assumption.
  cbn [extract_loop app]. unfold breaks_extraction in Hm.
  destruct (t_content m) as [s|n rendering] eqn:Hcontent; [discriminate|].
  apply andb_true_iff in Hm as [Hin Hlen].
  cbn [str_of_content]. rewrite Hin. cbn [_extract_from_content]. rewrite Hlen.
  assert (Hlast : last response = Some (default m (last post))).
  { unfold response. rewrite last_app. cbn [last].
    destruct post as [|m' post]; [reflexivity|].
    cbn. destruct (last (m' :: post)) eqn:E; [reflexivity|].
    apply last_None in E. discriminate. }
  rewrite Hlast, <- app_assoc. reflexivity.
Qed.

Lemma extraction_failure_keeps_results_witness :
  _extract_research_results_from_response offline_world
    (transcript_of "Qubit counts keep growing." ++ blocks_message :: [])
    "quantum computing trends"
  = flat_map (message_results offline_world
                (transcript_of "Qubit counts keep growing." ++ blocks_message :: [])
                "quantum computing trends")
      (transcript_of "Qubit counts keep growing.")
    ++ tool_call_results offline_world
         (transcript_of "Qubit counts keep growing." ++ blocks_message :: [])
         (default [] (t_tool_calls blocks_message))
    ++ [ {| query := "Research on " +:+ "quantum computing trends";
            content :=
              str_take 1000
                (str_of_content (t_content (default blocks_message (last []))));
            source := "Generated from research agent";
            relevance_score := 0.8 |} ].
Proof.
  apply (extraction_failure_keeps_results offline_world "quantum computing trends"
           (transcript_of "Qubit counts keep growing.") [] blocks_message);
    [repeat constructor | reflexivity].
Defined.

(** ** The Plan stage, continued *)

Lemma rev_app_append (s t acc : string) :
  String.rev_app (s +:+ t) acc = String.rev_app t (String.rev_app s acc).
Proof.
  revert acc. induction s as [|c s IH]; intros acc; [reflexivity|].
  rewrite append_cons. cbn. apply IH.
Qed.

Lemma py_endswith_append_char (s : string) (c : ascii) :
  py_endswith (String c "") (s +:+ String c "") = true.
Proof.
  unfold py_endswith, String.rev. rewrite rev_app_append. cbn.
  unfold ascii_eqb. rewrite Stdlib.Strings.Ascii.eqb_refl. reflexivity.
Qed.

Lemma subtopics_loop_items (lines : list string) :
  forall in_section found,
    Forall (fun item => 3 < Z.of_nat (String.length item)) found ->
    Forall (fun item => 3 < Z.of_nat (String.length item))
           (subtopics_loop lines in_section found).
Proof.
  induction lines as [|raw lines IH]; intros in_section found Hfound; [exact Hfound|].
  cbn [subtopics_loop].
  destruct (_ && _); [apply IH, Hfound|].
  destruct (_ && _); [exact Hfound|].
  destruct (_ && _); [|apply IH, Hfound].
  destruct (negb _ && (3 <? _)) eqn:Hkeep; [|apply IH, Hfound].
  apply IH, Forall_app. split; [exact Hfound|]. constructor; [|constructor].
  apply andb_true_iff in Hkeep as [_ Hlen]. lia.
Qed.

Lemma questions_loop_items (lines : list string) :
  forall in_section found,
    Forall (fun item => 10 < Z.of_nat (String.length item)
                        /\ py_endswith "?" item = true) found ->
    Forall (fun item => 10 < Z.of_nat (String.length item)
                        /\ py_endswith "?" item = true)
           (questions_loop lines in_section found).
Proof.
  induction lines as [|raw lines IH]; intros in_section found Hfound; [exact Hfound|].
  cbn [questions_loop].
  destruct (_ && _); [apply IH, Hfound|].
  destruct (_ && _); [exact Hfound|].
  destruct (_ && _); [|apply IH, Hfound].
  destruct (negb _ && (10 <? _)) eqn:Hkeep; [|apply IH, Hfound].
  apply IH, Forall_app. split; [exact Hfound|]. constructor; [|constructor].
  apply andb_true_iff in Hkeep as [_ Hlen].
  destruct (py_endswith "?" _) eqn:Hend; [split; [lia | exact Hend]|].
  split; [|apply py_endswith_append_char].
  assert (Happ : forall a b, String.length (a +:+ b)
                             = (String.length a + String.length b)%nat).
  { intros a b. induction a as [|c a IHa]; [reflexivity|].
    rewrite append_cons. cbn. rewrite IHa. reflexivity. }
  rewrite Happ. lia.
Qed.

Lemma fallback_and_cap {A} {Hdec : EqDecision A} (P : A -> Prop) (n : nat)
    (fallback : A) (found : list A) :
  (1 <= n)%nat -> P fallback -> Forall P found ->
  let items := take n (if decide (found = []) then [fallback] else found) in
  Forall P items /\ (1 <= length items <= n)%nat.
Proof.
  intros Hn Hfallback Hfound. cbn zeta.
  destruct (decide (found = [])) as [->|Hne].
  - split; [apply Forall_take; constructor; [exact Hfallback | constructor]|].
    rewrite length_take. cbn. lia.
  - split; [apply Forall_take, Hfound|].
    rewrite length_take. destruct found; [congruence | cbn; lia].
Qed.

Lemma extractors_shape (c : string) :
  (Forall (fun item => 3 < Z.of_nat (String.length item)) (_extract_subtopics c)
   /\ (1 <= length (_extract_subtopics c) <= 7)%nat)
  /\ (Forall (fun item => 10 < Z.of_nat (String.length item)
                          /\ py_endswith "?" item = true)
             (_extract_research_questions c)
      /\ (1 <= length (_extract_research_questions c) <= 10)%nat).
Proof.
  split.
  - apply (fallback_and_cap (Hdec:=_)); [lia | reflexivity|].
    apply subtopics_loop_items. constructor.
  - apply (fallback_and_cap (Hdec:=_)); [lia | split; reflexivity|].
    apply questions_loop_items. constructor.
Qed.

(** X10: the items that the extractors return are never short: every
    subtopic has more than 3 characters, every research question has more
    than 10 characters and ends with a question mark; each list has at
    least one item, and at most 7 and 10 items. *)
Theorem extracted_items_shape (c : string) :
  Forall (fun item => 3 < Z.of_nat (String.length item)) (_extract_subtopics c)
  /\ (1 <= length (_extract_subtopics c) <= 7)%nat
  /\ Forall (fun item => 10 < Z.of_nat (String.length item)
                         /\ py_endswith "?" item = true)
            (_extract_research_questions c)
  /\ (1 <= length (_extract_research_questions c) <= 10)%nat.
Proof.
  destruct (extractors_shape c) as [[Hs Hslen] [Hq Hqlen]]. auto.
Qed.

(** X11: on every path (a parsed response, a response that cannot be
    parsed, an exception of the generation, no user message) the Plan stage
    returns a plan whose subtopics and research questions are not empty,
    hold at most 7 and 10 items, and whose questions all end with a
    question mark. *)
Theorem planner_plan_shape (w : World) (state : ResearchMultiAgentState) :
  exists plan,
    d_research_plan (call_planner_agent w state) = Some plan
    /\ (1 <= length (subtopics plan) <= 7)%nat
    /\ (1 <= length (research_questions plan) <= 10)%nat
    /\ Forall (fun q => py_endswith "?" q = true) (research_questions plan).
Proof.
  assert (Hsingle : forall prefix user_query,
             let plan := single_item_plan prefix user_query in
             (1 <= length (subtopics plan) <= 7)%nat
             /\ (1 <= length (research_questions plan) <= 10)%nat
             /\ Forall (fun q => py_endswith "?" q = true) (research_questions plan)).
  { intros prefix user_query. cbn. split; [lia|]. split; [lia|].
    constructor; [|constructor].
    rewrite <- append_assoc. apply (py_endswith_append_char _ "?"%char). }
  unfold call_planner_agent, planner_attempt.
  destruct (last (filter _ _)) as [last_message|];
    [|eexists; split; [reflexivity | apply (Hsingle "General research on: ")]].
  destruct (planner_model w (text last_message)) as [[c|n rendering]|e];
    cbn [mbind result_bind parse_plan].
  - eexists. split; [reflexivity|]. cbn.
    destruct (extractors_shape c) as [[_ Hslen] [Hq Hqlen]].
    split; [exact Hslen|]. split; [exact Hqlen|].
    eapply Forall_impl; [exact Hq|]. intros q [_ Hend]. exact Hend.
  - eexists. split; [reflexivity | apply (Hsingle "Research aspect of: ")].
  - eexists. split; [reflexivity | apply (Hsingle "General research on: ")].
Qed.

Lemma main_topic_lines_origin (lines : list string) (fallback : string) :
  _extract_main_topic_lines lines fallback = fallback
  \/ exists line,
       line ∈ lines
       /\ (py_in "main topic" (py_lower line) = true
           \/ py_in "topic:" (py_lower line) = true)
       /\ py_in ":" line = true
       /\ _extract_main_topic_lines lines fallback
          = py_strip (after_first_colon line)
       /\ py_strip (after_first_colon line) <> "".
Proof.
  induction lines as [|line lines IH]; [left; reflexivity|].
  cbn [_extract_main_topic_lines].
  destruct ((_ || _) && _ && _) eqn:Htest.
  - right. exists line.
    apply andb_true_iff in Htest as [Htest Hne].
    apply andb_true_iff in Htest as [Hlabel Hcolon].
    split; [left|]. split; [apply orb_true_iff, Hlabel|].
    split; [exact Hcolon|]. split; [reflexivity|].
    apply negb_true_iff, String.eqb_neq in Hne. exact Hne.
  - destruct IH as [IH|(l & Hin & Hrest)]; [left; exact IH|].
    right. exists l. split; [right; exact Hin | exact Hrest].
Qed.

(** X12: the main topic is the user query given as fallback, or the text
    that follows the first colon of a line of the response which names the
    topic ("main topic" or "topic:", in any case), surrounding whitespace
    removed; that text is never empty. *)
Theorem main_topic_origin (c fallback : string) :
  _extract_main_topic c fallback = fallback
  \/ exists line,
       line ∈ split_lines c
       /\ (py_in "main topic" (py_lower line) = true
           \/ py_in "topic:" (py_lower line) = true)
       /\ py_in ":" line = true
       /\ _extract_main_topic c fallback = py_strip (after_first_colon line)
       /\ py_strip (after_first_colon line) <> "".
Proof. apply main_topic_lines_origin. Qed.

(** X13: without a user message in the state the Plan stage does not turn
    to the model: it returns the error message of the missing input and the
    single-item plan of the text of the last message of the state, or of
    "Unknown query" when the state has no message at all. *)
Theorem planner_without_user_message (w : World) (state : ResearchMultiAgentState) :
  filter (fun m => is_user m = true) (messages state) = [] ->
  d_messages (call_planner_agent w state)
  = [AIMessage
       "Error creating research plan: No user message found for research planning"
       "planner"]
  /\ d_research_plan (call_planner_agent w state)
     = Some (single_item_plan "General research on: "
               match last (messages state) with
               | Some last_msg => text last_msg
               | None => "Unknown query"
               end)
  /\ d_current_agent (call_planner_agent w state) = Some "researcher".
Proof.
  intros Hnone. unfold call_planner_agent, planner_attempt.
  rewrite Hnone. cbn. repeat split.
Qed.

Lemma planner_without_user_message_witness :
  d_messages (call_planner_agent tavily_world (initial_state []))
  = [AIMessage
       "Error creating research plan: No user message found for research planning"
       "planner"]
  /\ d_research_plan (call_planner_agent tavily_world (initial_state []))
     = Some (single_item_plan "General research on: "
               match last (messages (initial_state [])) with
               | Some last_msg => text last_msg
               | None => "Unknown query"
               end)
  /\ d_current_agent (call_planner_agent tavily_world (initial_state []))
     = Some "researcher".
Proof.
  apply (planner_without_user_message tavily_world (initial_state [])). reflexivity.
Defined.

(** ** The Write stage, continued *)

Lemma fallback_report_contains (state : ResearchMultiAgentState) (error_msg : string) :
  py_in error_msg (_create_fallback_report state error_msg) = true
  /\ py_startswith "# Research Report - Summary"
       (_create_fallback_report state error_msg) = true.
Proof.
  unfold _create_fallback_report. cbv zeta. split.
  - do 8 (apply py_in_append_r). apply py_in_here.
  - rewrite !append_assoc. apply py_startswith_append.
Qed.

(** X14: whenever the Write stage cannot produce the report (no user
    message, no plan, or an exception of the model) it still returns a
    report and hands over as completed: the report is the summary report,
    which begins with the title "# Research Report - Summary" and quotes
    the error; without a user message or without a plan the model is not
    asked. *)
Theorem writer_fallback_report (w : World) (state : ResearchMultiAgentState)
    (e : string) :
  writer_attempt w state = Raise e ->
  d_final_report (call_writer_agent w state)
  = Some (_create_fallback_report state e)
  /\ d_current_agent (call_writer_agent w state) = Some "completed"
  /\ py_in e (_create_fallback_report state e) = true
  /\ py_startswith "# Research Report - Summary" (_create_fallback_report state e)
     = true
  /\ (filter (fun m => is_user m = true) (messages state) = []
      \/ research_plan state = None
      \/ writer_model w state = Raise e).
Proof.
  intros Hraise. unfold call_writer_agent. rewrite Hraise. cbn.
  split; [reflexivity|]. split; [reflexivity|].
  destruct (fallback_report_contains state e) as [Hin Hstart].
  split; [exact Hin|]. split; [exact Hstart|].
  unfold writer_attempt in Hraise.
  destruct (filter _ _); [left; reflexivity|].
  destruct (research_plan state); [|right; left; reflexivity].
  right; right. destruct (writer_model w state); [discriminate|].
  cbn in Hraise. congruence.
Qed.

Lemma writer_fallback_report_witness :
  d_final_report (call_writer_agent offline_world (sample_state 1 5 1 1))
  = Some (_create_fallback_report (sample_state 1 5 1 1) "connection refused")
  /\ d_current_agent (call_writer_agent offline_world (sample_state 1 5 1 1))
     = Some "completed"
  /\ py_in "connection refused"
       (_create_fallback_report (sample_state 1 5 1 1) "connection refused") = true
  /\ py_startswith "# Research Report - Summary"
       (_create_fallback_report (sample_state 1 5 1 1) "connection refused") = true
  /\ (filter (fun m => is_user m = true) (messages (sample_state 1 5 1 1)) = []
      \/ research_plan (sample_state 1 5 1 1) = None
      \/ writer_model offline_world (sample_state 1 5 1 1) = Raise "connection refused").
Proof.
  apply (writer_fallback_report offline_world (sample_state 1 5 1 1)
           "connection refused").
  reflexivity.
Defined.

(** X15: when the model answers, the final report is the answer behind
    the metadata header and, possibly, before the Sources section: it
    begins with the header and contains the model's text, and the stage's
    message ends with the final report. *)
Theorem writer_report_contains_answer (w : World) (state : ResearchMultiAgentState)
    (delta : Delta) :
  writer_attempt w state = Ok delta ->
  exists report enhanced intro,
    writer_model w state = Ok report
    /\ d_final_report (call_writer_agent w state) = Some enhanced
    /\ py_startswith (report_metadata w state +:+ report) enhanced = true
    /\ d_messages (call_writer_agent w state)
       = [AIMessage (intro +:+ enhanced) "writer"].
Proof.
  intros Hok. unfold call_writer_agent. rewrite Hok.
  unfold writer_attempt in Hok.
  destruct (filter _ _) as [|first_message rest]; [discriminate|].
  destruct (research_plan state) as [plan|]; [|discriminate].
  destruct (writer_model w state) as [report|e]; [|discriminate].
  cbn in Hok. injection Hok as <-. cbn.
  exists report, (_enhance_report_formatting w report state),
         ("Research report completed for: " +:+ text first_message +:+ nl +:+ nl).
  split; [reflexivity|]. split; [reflexivity|].
  split.
  - unfold _enhance_report_formatting.
    destruct (negb _ && negb _).
    + rewrite <- !append_assoc. apply py_startswith_append.
    + rewrite <- (append_empty_r (report_metadata w state +:+ report)) at 2.
      apply py_startswith_append.
  - rewrite !append_assoc. reflexivity.
Qed.

Lemma writer_report_contains_answer_witness :
  exists report enhanced intro,
    writer_model answering_world (sample_state 1 5 1 1) = Ok report
    /\ d_final_report (call_writer_agent answering_world (sample_state 1 5 1 1))
       = Some enhanced
    /\ py_startswith (report_metadata answering_world (sample_state 1 5 1 1) +:+ report)
         enhanced = true
    /\ d_messages (call_writer_agent answering_world (sample_state 1 5 1 1))
       = [AIMessage (intro +:+ enhanced) "writer"].
Proof.
  eapply (writer_report_contains_answer answering_world (sample_state 1 5 1 1)).
  reflexivity.
Defined.

(** The planner on a response with labelled sections. *)
Example planner_parses_sections :
  d_research_plan
    (call_planner_agent answering_world
       (initial_state [HumanMessage "quantum computing trends"]))
  = Some {| main_topic := "Quantum computing";
            subtopics := ["Quantum hardware"; "Error correction"];
            research_questions := ["How many qubits do current machines have?"] |}.
Proof. reflexivity. Qed.

(** ** The research summary *)

Section Grouping.

Variable plan : ResearchPlan.

Lemma matched_subtopic_some (r : ResearchResult) (subtopic : string) :
  matched_subtopic plan r = Some subtopic ->
  subtopic ∈ subtopics plan /\ subtopic_matches r subtopic = true /\ subtopic <> "".
Proof.
  unfold matched_subtopic. intros Hfind.
  apply find_some in Hfind as [Hin Hmatch].
  split; [apply list_elem_of_In, Hin|]. split; [exact Hmatch|].
  intros ->. discriminate.
Qed.

(** The bucket of a subtopic in the dict. *)
Lemma bucket_append_lookup (key k : string) (r : ResearchResult)
    (buckets : list (string * list ResearchResult)) :
  default [] (assoc k (bucket_append key r buckets))
  = default [] (assoc k buckets) ++ (if decide (key = k) then [r] else []).
Proof.
  induction buckets as [|[k' rs] buckets IH]; cbn [bucket_append assoc].
  - destruct (decide (key = k)); reflexivity.
  - destruct (decide (k' = key)) as [->|Hne]; cbn [assoc].
    + destruct (decide (key = k)); [reflexivity | cbn; rewrite app_nil_r; reflexivity].
    + destruct (decide (k' = k)) as [->|]; [|exact IH].
      cbn. destruct (decide (key = k)); [congruence|]. rewrite app_nil_r. reflexivity.
Qed.

Lemma bucket_append_keys (key : string) (r : ResearchResult)
    (buckets : list (string * list ResearchResult)) :
  NoDup buckets.*1 -> Forall (fun b => b.2 <> []) buckets ->
  NoDup (bucket_append key r buckets).*1
  /\ Forall (fun b => b.2 <> []) (bucket_append key r buckets)
  /\ forall k, k ∈ (bucket_append key r buckets).*1 <-> k = key \/ k ∈ buckets.*1.
Proof.
  induction buckets as [|[k' rs] buckets IH]; intros Hnodup Hne.
  - cbn. split; [repeat constructor; set_solver|].
    split; [repeat constructor; discriminate|]. intros k. set_solver.
  - cbn [bucket_append]. inversion Hnodup as [|? ? Hnotin Hnodup']; subst.
    inversion Hne as [|? ? Hrs Hne']; subst.
    destruct (decide (k' = key)) as [->|Hk].
    + cbn. split; [constructor; assumption|].
      split; [constructor; [cbn; destruct rs; discriminate | assumption]|].
      intros k. set_solver.
    + destruct (IH Hnodup' Hne') as (IH1 & IH2 & IH3).
      cbn. split; [constructor; [rewrite IH3; set_solver | exact IH1]|].
      split; [constructor; assumption|].
      intros k. rewrite elem_of_cons, IH3. set_solver.
Qed.

Lemma group_results_invariant (results : list ResearchResult) :
  forall subtopic_results other_results,
    NoDup subtopic_results.*1 ->
    Forall (fun b => b.2 <> []) subtopic_results ->
    let grouped := group_results plan results subtopic_results other_results in
    grouped.2
    = other_results ++ filter (fun r => matched_subtopic plan r = None) results
    /\ (forall k,
           default [] (assoc k grouped.1)
           = default [] (assoc k subtopic_results)
             ++ filter (fun r => matched_subtopic plan r = Some k) results)
    /\ NoDup grouped.1.*1
    /\ Forall (fun b => b.2 <> []) grouped.1.
Proof.
  induction results as [|r results IH]; intros groups others Hnodup Hne; cbn zeta.
  - cbn. split; [rewrite app_nil_r; reflexivity|].
    split; [intros k; rewrite app_nil_r; reflexivity|]. split; assumption.
  - cbn [group_results].
    destruct (matched_subtopic plan r) as [subtopic|] eqn:Hmatch.
    + destruct (matched_subtopic_some _ _ Hmatch) as (_ & _ & Hnonempty).
      destruct (decide (subtopic = "")); [contradiction|].
      destruct (bucket_append_keys subtopic r groups Hnodup Hne) as (Hn & Hf & _).
      destruct (IH (bucket_append subtopic r groups) others Hn Hf)
        as (IH1 & IH2 & IH3 & IH4).
      split.
      { rewrite IH1. rewrite filter_cons_False by congruence. reflexivity. }
      split; [|split; assumption].
      intros k. rewrite IH2, bucket_append_lookup, <- app_assoc. f_equal.
      destruct (decide (subtopic = k)) as [->|Hk].
      * rewrite filter_cons_True by assumption. reflexivity.
      * rewrite filter_cons_False by congruence. reflexivity.
    + destruct (IH groups (others ++ [r]) Hnodup Hne) as (IH1 & IH2 & IH3 & IH4).
      split.
      { rewrite IH1, <- app_assoc. rewrite filter_cons_True by exact Hmatch.
        reflexivity. }
      split; [|split; assumption].
      intros k. rewrite IH2. rewrite filter_cons_False by congruence. reflexivity.
Qed.

(** X16: the grouping of the research summary puts every Result into
    exactly one bucket and keeps the order of the Results: the bucket of a
    subtopic holds the Results whose first matching subtopic (one of its
    first three words occurs in the query, case ignored) is that subtopic,
    the additional bucket holds the Results that match no subtopic; no
    subtopic has two buckets and no bucket is empty. *)
Theorem summary_grouping (results : list ResearchResult) :
  let grouped := group_results plan results [] [] in
  grouped.2 = filter (fun r => matched_subtopic plan r = None) results
  /\ (forall k,
         default [] (assoc k grouped.1)
         = filter (fun r => matched_subtopic plan r = Some k) results)
  /\ NoDup grouped.1.*1
  /\ Forall (fun b => b.2 <> []) grouped.1.
Proof.
  apply (group_results_invariant results [] []); constructor.
Qed.

End Grouping.

(** The grouping on an example: two subtopics, three results. *)
Example summary_grouping_ex :
  group_results
    {| main_topic := "quantum"; subtopics := ["Quantum hardware"; "Error correction"];
       research_questions := [] |}
    [ {| query := "error rates"; content := "a"; source := "s1"; relevance_score := 0.8 |};
      {| query := "prices"; content := "b"; source := "s2"; relevance_score := 0.8 |};
      {| query := "HARDWARE vendors"; content := "c"; source := "s3";
         relevance_score := 0.8 |} ] [] []
  = ([("Error correction",
       [ {| query := "error rates"; content := "a"; source := "s1";
            relevance_score := 0.8 |} ]);
      ("Quantum hardware",
       [ {| query := "HARDWARE vendors"; content := "c"; source := "s3";
            relevance_score := 0.8 |} ])],
     [ {| query := "prices"; content := "b"; source := "s2"; relevance_score := 0.8 |} ]).
Proof. reflexivity. Qed.

(** ** What a run keeps *)

Section RunInvariants.

Variable w : World.

(** A relation that every node keeps is kept by the run. *)
Lemma run_from_related (g : StateGraph)
    (R : ResearchMultiAgentState -> ResearchMultiAgentState -> Prop) :
  (forall state, R state state) ->
  (forall a b c, R a b -> R b c -> R a c) ->
  (forall n f state, assoc n (nodes g) = Some f -> R state (merge state (f w state))) ->
  forall fuel n state out,
    run_from g w fuel n state = Some out -> R state out.1.
Proof.
  intros Hrefl Htrans Hnode. induction fuel as [|fuel IH]; intros n state out Hrun.
  - destruct n; cbn in Hrun; try discriminate. injection Hrun as <-. apply Hrefl.
  - destruct n; cbn [run_from] in Hrun;
      try (injection Hrun as <-; apply Hrefl).
    all: destruct (assoc _ (nodes g)) as [f|] eqn:Hf; [|discriminate];
      cbn in Hrun;
      destruct (successor g _ _) as [n'|]; [|discriminate]; cbn in Hrun;
      destruct (run_from g w fuel n' _) as [[final trace]|] eqn:Hrec;
      [|discriminate]; cbn in Hrun; injection Hrun as <-; cbn;
      eapply Htrans; [eapply Hnode, Hf | apply (IH _ _ _ Hrec)].
Qed.

(** The transcript grows by the messages of each node. *)
Lemma run_from_message_count (g : StateGraph) :
  (forall n f state,
      assoc n (nodes g) = Some f -> (1 <= length (d_messages (f w state)))%nat) ->
  forall fuel n state out,
    run_from g w fuel n state = Some out ->
    (length (messages state) + length out.2 <= length (messages out.1))%nat.
Proof.
  intros Hnode. induction fuel as [|fuel IH]; intros n state out Hrun.
  - destruct n; cbn in Hrun; try discriminate. injection Hrun as <-. cbn. lia.
  - destruct n; cbn [run_from] in Hrun;
      try (injection Hrun as <-; cbn; lia).
    all: destruct (assoc _ (nodes g)) as [f|] eqn:Hf; [|discriminate];
      cbn in Hrun;
      destruct (successor g _ _) as [n'|]; [|discriminate]; cbn in Hrun;
      destruct (run_from g w fuel n' _) as [[final trace]|] eqn:Hrec;
      [|discriminate]; cbn in Hrun; injection Hrun as <-;
      specialize (IH _ _ _ Hrec); specialize (Hnode _ _ state Hf);
      cbn in IH |- *; rewrite length_app in IH; lia.
Qed.

Lemma writer_delta_others (state : ResearchMultiAgentState) :
  d_research_plan (call_writer_agent w state) = None
  /\ d_research_results (call_writer_agent w state) = None
  /\ d_research_iterations (call_writer_agent w state) = None
  /\ length (d_messages (call_writer_agent w state)) = 1%nat.
Proof.
  unfold call_writer_agent, writer_attempt.
  destruct (filter _ _) as [|first_message rest]; [repeat split|].
  destruct (research_plan state) as [plan|]; [|repeat split].
  destruct (writer_model w state) as [report|e]; repeat split.
Qed.

Lemma planner_delta_messages (state : ResearchMultiAgentState) :
  length (d_messages (call_planner_agent w state)) = 1%nat.
Proof.
  unfold call_planner_agent, planner_attempt.
  destruct (last _) as [last_message|]; [|reflexivity].
  destruct (planner_model w (text last_message)) as [c|e]; reflexivity.
Qed.

Lemma research_delta_messages (state : ResearchMultiAgentState) :
  (1 <= length (d_messages (call_research_agent w state)) <= 2)%nat.
Proof.
  unfold call_research_agent, research_attempt.
  destruct (research_plan state) as [plan|]; [|cbn; lia].
  destruct (_ <=? _); [cbn; lia|].
  destruct (_create_research_instructions state) as [instr|e]; [|cbn; lia].
  cbn. destruct (research_agent w instr) as [resp|e]; [|cbn; lia].
  cbn. destruct (_should_continue_research _ _) as [[|]|e]; cbn; lia.
Qed.

Lemma workflow_nodes (with_loops : bool) (n : NodeName)
    (f : World -> ResearchMultiAgentState -> Delta) :
  assoc n (nodes (workflow_graph with_loops)) = Some f ->
  f = call_planner_agent \/ f = call_research_agent \/ f = call_writer_agent.
Proof.
  destruct with_loops, n; cbn; intros [= <-]; auto.
Qed.

(** With three steps or more the chain runs to its end. *)
Lemma run_chain_completes (fuel : nat) (state : ResearchMultiAgentState) :
  (3 <= fuel)%nat ->
  exists final,
    run create_research_multi_agent_graph w fuel state
    = Some (final, [Planner; Researcher; Writer]).
Proof.
  intros Hfuel. replace fuel with (S (S (S (fuel - 3)))) by lia.
  rewrite (run_planner_first w false). cbn [workflow_graph].
  rewrite run_from_researcher_chain. eexists. reflexivity.
Qed.

(** X17: a run of the graph of [create_research_multi_agent_graph] that
    is given three steps or more completes, and in it the conversation
    only grows: the messages of the input state are a prefix of the
    messages of the final state, and every node invocation has added at
    least one message. [max_research_iterations] is not changed. *)
Theorem run_appends_messages (fuel : nat) (state : ResearchMultiAgentState) :
  (3 <= fuel)%nat ->
  exists out,
    run create_research_multi_agent_graph w fuel state = Some out
    /\ messages state `prefix_of` messages out.1
    /\ (length (messages state) + length out.2 <= length (messages out.1))%nat
    /\ max_research_iterations out.1 = max_research_iterations state.
Proof.
  intros Hfuel. destruct (run_chain_completes fuel state Hfuel) as [final Hrun].
  exists (final, [Planner; Researcher; Writer]). split; [exact Hrun|].
  revert Hrun. generalize (final, [Planner; Researcher; Writer]). clear final.
  intros out. unfold run.
  change (assoc START (edges create_research_multi_agent_graph))
    with (Some Planner).
  cbn [mbind option_bind]. intros Hrun.
  split; [|split].
  - apply (run_from_related create_research_multi_agent_graph
             (fun a b => messages a `prefix_of` messages b)) in Hrun;
      [exact Hrun | reflexivity | intros a b c; apply transitivity|].
    intros n f st _. cbn. apply prefix_app_r. reflexivity.
  - apply (run_from_message_count create_research_multi_agent_graph) in Hrun;
      [exact Hrun|].
    intros n f st Hf.
    destruct (workflow_nodes false _ _ Hf) as [->|[->| ->]].
    + rewrite planner_delta_messages. lia.
    + apply research_delta_messages.
    + destruct (writer_delta_others st) as (_ & _ & _ & ->). lia.
  - apply (run_from_related create_research_multi_agent_graph
             (fun a b => max_research_iterations b = max_research_iterations a))
      in Hrun; [exact Hrun | reflexivity | intros a b c; congruence|].
    intros n f st _. reflexivity.
Qed.

Lemma workflow_nodes_keep (with_loops : bool) (n : NodeName)
    (f : World -> ResearchMultiAgentState -> Delta) (state : ResearchMultiAgentState) :
  assoc n (nodes (workflow_graph with_loops)) = Some f ->
  run_keeps state (merge state (f w state)).
Proof.
  intros Hf. unfold run_keeps.
  destruct (workflow_nodes _ _ _ Hf) as [->|[->| ->]].
  - destruct (planner_delta_fields w state) as ([p Hp] & Hit & Hres & _).
    cbn. rewrite Hp, Hit, Hres. cbn.
    split; [reflexivity|]. split; [lia|]. split; [reflexivity|].
    intros _. split; [eauto | lia].
  - split; [apply research_merge_results|].
    destruct (research_delta_plan w state) as [Hp _].
    cbn. rewrite Hp, research_delta_iterations. cbn.
    destruct (research_plan state) as [plan|].
    + destruct (Z.leb_spec (max_research_iterations state)
                  (research_iterations state));
        (split; [lia|]; split; [reflexivity|]; intros _; split; [eauto | lia]).
    + split; [lia|]. split; [reflexivity|]. intros [p Hp']. discriminate.
  - destruct (writer_delta_others state) as (Hp & Hres & Hit & _).
    cbn. rewrite Hp, Hres, Hit. cbn.
    split; [reflexivity|]. split; [lia|]. split; [reflexivity|].
    intros Hplan. split; [exact Hplan | lia].
Qed.

Lemma run_keeps_trans (a b c : ResearchMultiAgentState) :
  run_keeps a b -> run_keeps b c -> run_keeps a c.
Proof.
  intros (Hr1 & Hi1 & Hm1 & Hp1) (Hr2 & Hi2 & Hm2 & Hp2).
  split; [etransitivity; eassumption|]. split; [lia|]. split; [congruence|].
  intros Hplan. destruct (Hp1 Hplan) as [Hb Hib]. destruct (Hp2 Hb) as [Hc Hic].
  split; [exact Hc|]. rewrite Hm1 in Hic. lia.
Qed.

(** X18: a run of the graph of [create_research_multi_agent_graph] that
    is given three steps or more completes, and in it the results of the
    input state are a prefix of the final results, the iteration counter
    never goes down and never passes the budget (it ends at most at the
    larger of its initial value and [max_research_iterations]), and the
    final state holds a plan. *)
Theorem run_keeps_results_and_budget (fuel : nat)
    (state : ResearchMultiAgentState) :
  (3 <= fuel)%nat ->
  exists out,
    run create_research_multi_agent_graph w fuel state = Some out
    /\ research_results state `prefix_of` research_results out.1
    /\ research_iterations state <= research_iterations out.1
       <= Z.max (research_iterations state) (max_research_iterations state)
    /\ is_Some (research_plan out.1).
Proof.
  intros Hfuel. destruct (run_chain_completes fuel state Hfuel) as [final Hrun].
  exists (final, [Planner; Researcher; Writer]). split; [exact Hrun|].
  revert Hrun. generalize (final, [Planner; Researcher; Writer]). clear final.
  intros out. destruct fuel as [|fuel]; [lia|].
  rewrite (run_planner_first w false). cbn [workflow_graph].
  set (planned := merge state (call_planner_agent w state)).
  destruct (run_from _ w fuel Researcher planned) as [[final trace]|] eqn:Hrun;
    [|discriminate].
  cbn. intros [= <-]. cbn.
  apply (run_from_related create_research_multi_agent_graph run_keeps) in Hrun.
  - destruct Hrun as (Hres & Hit & Hmax & Hplan). cbn in *.
    destruct (planner_delta_fields w state) as (Hp & Hi & Hr & _).
    assert (Hplanned : is_Some (research_plan planned)).
    { subst planned. cbn. destruct Hp as [p ->]. eauto. }
    destruct (Hplan Hplanned) as [Hfinal Hbound].
    subst planned. cbn in *. rewrite Hi, Hr in *. cbn in *.
    split; [exact Hres|]. split; [lia | exact Hfinal].
  - intros st. split; [reflexivity|]. split; [lia|]. split; [reflexivity|].
    intros H. split; [exact H | lia].
  - apply run_keeps_trans.
  - intros n f st Hf. eapply (workflow_nodes_keep false), Hf.
Qed.

End RunInvariants.

Lemma run_appends_messages_witness :
  exists out,
    run create_research_multi_agent_graph offline_world 3 zero_budget_state
    = Some out
    /\ messages zero_budget_state `prefix_of` messages out.1
    /\ (length (messages zero_budget_state) + length out.2
        <= length (messages out.1))%nat
    /\ max_research_iterations out.1 = max_research_iterations zero_budget_state.
Proof.
  apply (run_appends_messages offline_world 3 zero_budget_state). lia.
Defined.

Lemma run_keeps_results_and_budget_witness :
  let state := initial_state [HumanMessage "quantum computing trends"] in
  exists out,
    run create_research_multi_agent_graph tavily_world 3 state = Some out
    /\ research_results state `prefix_of` research_results out.1
    /\ research_iterations state <= research_iterations out.1
       <= Z.max (research_iterations state) (max_research_iterations state)
    /\ is_Some (research_plan out.1).
Proof.
  apply (run_keeps_results_and_budget tavily_world 3
           (initial_state [HumanMessage "quantum computing trends"])). lia.
Defined.

(** ** Authentication *)

Lemma whitespace_lower (c : ascii) :
  char_in c py_whitespace = true -> lower_ascii c = c.
Proof.
  destruct c as [[] [] [] [] [] [] [] []]; vm_compute; intros H;
    first [discriminate H | reflexivity].
Qed.

Lemma lower_no_whitespace (s : string) :
  forall t, py_lower s = t -> no_whitespace t -> no_whitespace s.
Proof.
  unfold no_whitespace.
  induction s as [|c s IH]; intros t <- Ht; [constructor|].
  cbn [py_lower String.list_ascii_of_string] in Ht |- *.
  inversion Ht as [|? ? Hc Hs]; subst.
  constructor; [|eapply IH; [reflexivity | exact Hs]].
  destruct (char_in c py_whitespace) eqn:Hws; [|reflexivity].
  rewrite (whitespace_lower c Hws) in Hc. congruence.
Qed.

Lemma first_word_append (s rest : string) :
  no_whitespace s ->
  py_lstrip py_whitespace rest <> rest \/ rest = "" ->
  first_word (s +:+ rest) = (s, rest).
Proof.
  unfold no_whitespace. intros Hs Hrest.
  induction s as [|c s IH].
  - change ("" +:+ rest) with rest. destruct rest as [|c rest]; [reflexivity|].
    cbn [first_word]. destruct (char_in c py_whitespace) eqn:Hc; [reflexivity|].
    destruct Hrest as [Hrest|Hrest]; [|discriminate].
    cbn [py_lstrip] in Hrest. rewrite Hc in Hrest. congruence.
  - cbn [String.list_ascii_of_string] in Hs. inversion Hs as [|? ? Hc Hs']; subst.
    rewrite append_cons. cbn [first_word]. rewrite Hc, (IH Hs'). reflexivity.
Qed.

Lemma lstrip_whitespace_prefix (gap rest : string) :
  all_whitespace gap ->
  py_lstrip py_whitespace (gap +:+ rest) = py_lstrip py_whitespace rest.
Proof.
  unfold all_whitespace. induction gap as [|c gap IH]; intros Hgap; [reflexivity|].
  cbn [String.list_ascii_of_string] in Hgap.
  inversion Hgap as [|? ? Hc Hgap']; subst.
  rewrite append_cons. cbn [py_lstrip]. rewrite Hc. apply IH, Hgap'.
Qed.

Lemma lstrip_no_whitespace (s rest : string) :
  no_whitespace s -> s <> "" ->
  py_lstrip py_whitespace (s +:+ rest) = s +:+ rest.
Proof.
  unfold no_whitespace. destruct s as [|c s]; [congruence|].
  cbn [String.list_ascii_of_string]. intros Hs _.
  inversion Hs as [|? ? Hc _]; subst.
  rewrite append_cons. cbn [py_lstrip]. rewrite Hc. reflexivity.
Qed.

Lemma valid_token_cases (token : string) (user : User) :
  VALID_TOKENS !! token = Some user ->
  (token = "user1-token" /\ user_id user = "user1")
  \/ (token = "user2-token" /\ user_id user = "user2")
  \/ (token = "admin-token" /\ user_id user = "admin").
Proof.
  unfold VALID_TOKENS. cbn [list_to_map foldr uncurry fst snd].
  intros H.
  apply lookup_insert_Some in H as [[<- <-]|[_ H]]; [auto|].
  apply lookup_insert_Some in H as [[<- <-]|[_ H]]; [auto|].
  apply lookup_insert_Some in H as [[<- <-]|[_ H]]; [auto|].
  rewrite lookup_empty in H. discriminate.
Qed.

(** The header of a scheme, a gap of whitespace and a rest without
    leading whitespace splits into the scheme and the rest. *)
Lemma split_scheme_and_rest (scheme gap rest : string) :
  no_whitespace scheme -> scheme <> "" ->
  all_whitespace gap -> gap <> "" ->
  py_lstrip py_whitespace rest = rest -> rest <> "" ->
  split_maxsplit_1 (scheme +:+ gap +:+ rest) = [scheme; rest].
Proof.
  intros Hscheme Hne Hgap Hgne Hrest Hrne. unfold split_maxsplit_1.
  rewrite lstrip_no_whitespace by assumption.
  destruct (decide (scheme +:+ gap +:+ rest = "")) as [Hempty|_].
  { destruct scheme; [congruence | discriminate]. }
  rewrite first_word_append; [|assumption|].
  - rewrite lstrip_whitespace_prefix, Hrest by assumption.
    destruct (decide (rest = "")); [contradiction | reflexivity].
  - left. rewrite lstrip_whitespace_prefix, Hrest by assumption.
    intros Heq. apply (f_equal String.length) in Heq.
    assert (Happ : forall a b, String.length (a +:+ b)
                               = (String.length a + String.length b)%nat).
    { intros a b. induction a as [|c a IHa]; [reflexivity|].
      rewrite append_cons. cbn. rewrite IHa. reflexivity. }
    rewrite Happ in Heq. destruct gap; [congruence | cbn in Heq; lia].
Qed.

(** X19: a header made of the scheme "bearer" in any mix of cases, one or
    more whitespace characters, and a token of the table authenticates as
    the user of that token. *)
Theorem bearer_token_accepted (scheme gap token : string) (user : User) :
  py_lower scheme = "bearer" ->
  all_whitespace gap -> gap <> "" ->
  VALID_TOKENS !! token = Some user ->
  get_current_user (Some (scheme +:+ gap +:+ token)) = Ok (user_id user).
Proof.
  intros Hscheme Hgap Hgne Htoken.
  assert (Hnows : no_whitespace scheme).
  { apply (lower_no_whitespace scheme "bearer" Hscheme). repeat constructor. }
  assert (Hne : scheme <> "") by (intros ->; discriminate).
  assert (Htok : py_lstrip py_whitespace token = token /\ token <> "").
  { destruct (valid_token_cases _ _ Htoken) as [[-> _]|[[-> _]|[-> _]]];
      split; first [reflexivity | discriminate]. }
  unfold get_current_user.
  destruct (decide (scheme +:+ gap +:+ token = "")) as [Hempty|_].
  { destruct scheme; [congruence | discriminate]. }
  rewrite (split_scheme_and_rest scheme gap token) by tauto.
  destruct (decide (py_lower scheme = "bearer")); [|contradiction].
  rewrite Htoken. reflexivity.
Qed.

Lemma bearer_token_accepted_witness :
  get_current_user (Some ("BeArEr" +:+ "  " +:+ "admin-token")) = Ok "admin".
Proof.
  apply (bearer_token_accepted "BeArEr" "  " "admin-token"
           {| user_id := "admin"; user_name := "Admin" |});
    [reflexivity | repeat constructor | discriminate | reflexivity].
Defined.

(** X20: whoever is authenticated is one of the three users of the
    table: an identity is returned only for a header that splits into a
    scheme that reads "bearer" when put in lower case and a token of the
    table, and it is the identity stored under that token. *)
Theorem authenticated_users (authorization : option string) (identity : string) :
  get_current_user authorization = Ok identity ->
  identity ∈ ["user1"; "user2"; "admin"]
  /\ exists header scheme token,
       authorization = Some header
       /\ split_maxsplit_1 header = [scheme; token]
       /\ py_lower scheme = "bearer"
       /\ user_id <$> VALID_TOKENS !! token = Some identity.
Proof.
  unfold get_current_user. destruct authorization as [header|]; [|discriminate].
  destruct (decide (header = "")); [discriminate|].
  destruct (split_maxsplit_1 header) as [|scheme [|token [|]]] eqn:Hsplit;
    try discriminate.
  destruct (decide (py_lower scheme = "bearer")) as [Hscheme|]; [|discriminate].
  destruct (VALID_TOKENS !! token) as [user|] eqn:Htoken; [|discriminate].
  intros [= <-]. split.
  - destruct (valid_token_cases _ _ Htoken) as [[_ ->]|[[_ ->]|[_ ->]]]; set_solver.
  - exists header, scheme, token. rewrite Htoken. auto.
Qed.

Lemma authenticated_users_witness :
  "user1" ∈ ["user1"; "user2"; "admin"]
  /\ exists header scheme token,
       Some "Bearer user1-token" = Some header
       /\ split_maxsplit_1 header = [scheme; token]
       /\ py_lower scheme = "bearer"
       /\ user_id <$> VALID_TOKENS !! token = Some "user1".
Proof.
  apply (authenticated_users (Some "Bearer user1-token") "user1"). reflexivity.
Defined.

(** X21: the token is compared as it stands: anything after a token of
    the table, be it only whitespace, makes the header an invalid token;
    and a header of one word, with or without whitespace after it, has not
    the format of an authorization header. *)
Theorem header_is_not_trimmed (scheme token trailing : string) (user : User) :
  py_lower scheme = "bearer" ->
  VALID_TOKENS !! token = Some user ->
  (trailing <> "" ->
   get_current_user (Some (scheme +:+ " " +:+ token +:+ trailing))
   = Raise "Invalid token")
  /\ (all_whitespace trailing ->
      get_current_user (Some (scheme +:+ trailing))
      = Raise "Invalid authorization header format").
Proof.
  intros Hscheme Htoken.
  assert (Hnows : no_whitespace scheme).
  { apply (lower_no_whitespace scheme "bearer" Hscheme). repeat constructor. }
  assert (Hne : scheme <> "") by (intros ->; discriminate).
  assert (Happ : forall a b, String.length (a +:+ b)
                             = (String.length a + String.length b)%nat).
  { intros a b. induction a as [|c a IHa]; [reflexivity|].
    rewrite append_cons. cbn. rewrite IHa. reflexivity. }
  split.
  - intros Htrail.
    assert (Htok : py_lstrip py_whitespace (token +:+ trailing) = token +:+ trailing
                   /\ token +:+ trailing <> "" /\ String.length token = 11%nat).
    { destruct (valid_token_cases _ _ Htoken) as [[-> _]|[[-> _]|[-> _]]];
        repeat split; discriminate. }
    destruct Htok as (Hstrip & Hrne & Hlen).
    unfold get_current_user.
    destruct (decide (scheme +:+ " " +:+ token +:+ trailing = "")) as [Hempty|_].
    { destruct scheme; [congruence | discriminate]. }
    rewrite (split_scheme_and_rest scheme " " (token +:+ trailing));
      [|assumption|assumption|repeat constructor|discriminate|assumption|assumption].
    destruct (decide (py_lower scheme = "bearer")); [|contradiction].
    destruct (VALID_TOKENS !! (token +:+ trailing)) as [user'|] eqn:Hlookup;
      [|reflexivity].
    exfalso.
    assert (Hlen' : String.length (token +:+ trailing) = 11%nat).
    { destruct (valid_token_cases _ _ Hlookup) as [[-> _]|[[-> _]|[-> _]]];
        reflexivity. }
    rewrite Happ, Hlen in Hlen'. destruct trailing; [congruence | cbn in Hlen'; lia].
  - intros Htrail. unfold get_current_user.
    destruct (decide (scheme +:+ trailing = "")) as [Hempty|_].
    { destruct scheme; [congruence | discriminate]. }
    unfold split_maxsplit_1. rewrite lstrip_no_whitespace by assumption.
    destruct (decide (scheme +:+ trailing = "")) as [Hempty|_].
    { destruct scheme; [congruence | discriminate]. }
    assert (Hstrip : py_lstrip py_whitespace trailing = "").
    { rewrite <- (append_empty_r trailing).
      rewrite lstrip_whitespace_prefix by assumption. reflexivity. }
    rewrite first_word_append; [|assumption|].
    + rewrite Hstrip. reflexivity.
    + destruct trailing; [right; reflexivity | left; rewrite Hstrip; discriminate].
Qed.

Lemma header_is_not_trimmed_witness :
  get_current_user (Some ("Bearer" +:+ " " +:+ "user1-token" +:+ " "))
  = Raise "Invalid token"
  /\ get_current_user (Some ("Bearer" +:+ "  ")) = Raise "Invalid authorization header format".
Proof.
  destruct (header_is_not_trimmed "Bearer" "user1-token" " "
              {| user_id := "user1"; user_name := "Alice" |} eq_refl eq_refl)
    as [Htoken _].
  destruct (header_is_not_trimmed "Bearer" "user1-token" "  "
              {| user_id := "user1"; user_name := "Alice" |} eq_refl eq_refl)
    as [_ Hformat].
  split; [apply Htoken; discriminate | apply Hformat; repeat constructor].
Defined.

(** ** The connection string of the checkpointer *)

(** X22: the connection string handed to the saver never has the scheme
    "postgres://": such a URL gets the scheme "postgresql://" in front of
    what followed the old scheme, every other non-empty URL is passed on as
    it is, and the string handed over is left alone when it is given
    again. An empty URL is an error. *)
Theorem checkpointer_url_scheme (database_url url : string) :
  checkpointer_url database_url = Ok url ->
  py_startswith "postgres://" url = false
  /\ url = (if py_startswith "postgres://" database_url
            then "postgresql://" +:+ str_drop 11 database_url
            else database_url)
  /\ checkpointer_url url = Ok url.
Proof.
  unfold checkpointer_url.
  destruct (decide (database_url = "")) as [|Hne]; [discriminate|].
  destruct (py_startswith "postgres://" database_url) eqn:Hstart.
  - assert (Hrep : py_replace_first "postgres://" "postgresql://" database_url
                   = "postgresql://" +:+ str_drop 11 database_url).
    { destruct database_url; cbn [py_replace_first]; rewrite Hstart; reflexivity. }
    rewrite Hrep. intros [= <-].
    split; [reflexivity|]. split; [reflexivity|].
    destruct (decide _); [discriminate | reflexivity].
  - intros [= <-]. split; [exact Hstart|]. split; [reflexivity|].
    destruct (decide (database_url = "")); [contradiction|].
    rewrite Hstart. reflexivity.
Qed.

Lemma checkpointer_url_scheme_witness :
  py_startswith "postgres://" "postgresql://u:p@host:5432/db" = false
  /\ "postgresql://u:p@host:5432/db"
     = (if py_startswith "postgres://" "postgres://u:p@host:5432/db"
        then "postgresql://" +:+ str_drop 11 "postgres://u:p@host:5432/db"
        else "postgres://u:p@host:5432/db")
  /\ checkpointer_url "postgresql://u:p@host:5432/db"
     = Ok "postgresql://u:p@host:5432/db".
Proof.
  apply (checkpointer_url_scheme "postgres://u:p@host:5432/db"). reflexivity.
Defined.

(** ** The first rules of the Continuation Policy, on inputs *)

Lemma policy_budget_witness :
  _should_continue_research
    {| messages := []; research_plan := None; research_results := [];
       research_iterations := 4; max_research_iterations := 5;
       final_report := None; current_agent := "researcher" |} []
  = Ok false.
Proof.
  apply (policy_budget
           {| messages := []; research_plan := None; research_results := [];
              research_iterations := 4; max_research_iterations := 5;
              final_report := None; current_agent := "researcher" |} []).
  cbn. lia.
Defined.

Lemma policy_needs_results_witness :
  _should_continue_research (sample_state 0 5 2 3)
    (research_results (sample_state 0 5 2 3)) = Ok true.
Proof.
  apply (policy_needs_results (sample_state 0 5 2 3) (sample_plan 2)
           (research_results (sample_state 0 5 2 3)));
    [reflexivity | cbn; lia | unfold len; cbn; lia].
Defined.
